(** * offcputime: off-CPU time by kernel stack trace

    A shallow embedding of [tools/offcputime.py]: the BPF program [oncpu]
    that runs on every [finish_task_switch], the tables it shares with the
    Python side, and the Python script that validates the arguments, attaches
    the probe, waits, and prints the tables. *)

From stdpp Require Import gmap strings list fin_maps pretty sorting.
From Stdlib Require Import ZArith Lia HexadecimalString.

Open Scope Z_scope.

(** ** Machine integers

    [u32] and [u64] values are integers with the wrap-around written out. *)

Definition wrap32 (z : Z) : Z := z mod 2 ^ 32.
Definition wrap64 (z : Z) : Z := z mod 2 ^ 64.

(** ** The BPF program *)

Module Probe.

(** [#define MINBLOCK_US 1] *)
Definition MINBLOCK_US : Z := 1.

(** [PF_KTHREAD] of [linux/sched.h]. *)
Definition PF_KTHREAD : Z := 0x00200000.

(** [struct key_t { char name[TASK_COMM_LEN]; int stack_id; }] *)
Record key_t := Key { name : string; stack_id : Z }.

#[global] Instance key_t_eq_dec : EqDecision key_t.
Proof. solve_decision. Defined.

#[global] Instance key_t_countable : Countable key_t.
Proof.
  refine (inj_countable' (λ k, (name k, stack_id k)) (λ p, Key p.1 p.2) _).
  by intros [].
Defined.

(** Modelled from the spec: the macros [BPF_HASH] and [BPF_STACK_TRACE] of
    the bcc headers, which declare the three tables of the program. [start]
    is the Pending-Start Table (thread id to the timestamp of its switch-out,
    unconditional upsert), [counts] the Aggregation Table (key to cumulative
    microseconds), [stack_traces] the stack store (fingerprint to the frames,
    innermost first). *)
Record tables := Tables {
  start : gmap Z Z;
  counts : gmap key_t Z;
  stack_traces : gmap Z (list Z)
}.

Definition no_tables : tables := Tables ∅ ∅ ∅.

(** What one run of [oncpu] reads from the kernel. *)
Record task_switch := TaskSwitch {
  prev_pid : Z;          (* prev->pid *)
  prev_flags : Z;        (* prev->flags *)
  pid_on_entry : Z;      (* what the local [u32 pid] holds before any assignment *)
  current_pid_tgid : Z;  (* bpf_get_current_pid_tgid() *)
  ktime_out : Z;         (* bpf_ktime_get_ns() when the previous thread is recorded *)
  ktime_in : Z;          (* bpf_ktime_get_ns() when the delta is calculated *)
  current_comm : string; (* bpf_get_current_comm() *)
  stackid_ret : Z;       (* what get_stackid() returns: an id, or a negative errno *)
  stack_frames : list Z  (* the frames of the stack walked by get_stackid() *)
}.

(** The text substituted for [FILTER]. *)
Inductive filter_t :=
| FilterPid (p : Z)   (* 'pid == %s' % args.pid, the text having the value p *)
| FilterExpr (cond : task_switch → bool)
                      (* 'pid == %s' % args.pid, the text being other C *)
| FilterUser          (* '!(prev->flags & PF_KTHREAD)' *)
| FilterAll.          (* '1' *)

(** [x == p] for a [u32] x and a decimal constant of value p, with or
    without a minus sign: the constant has type [int] when its digits are
    below 2^31, and is then converted to [unsigned]; a wider one has type
    [long] and is compared by value. *)
Definition u32_eq_const (x p : Z) : bool :=
  if (- 2 ^ 31 <? p) && (p <? 2 ^ 31) then x =? wrap32 p else x =? p.

(** The condition [if (FILTER)] at the head of [oncpu]. With the text
    [pid == p], [pid] is the local of [oncpu], which is assigned only inside
    the branch the condition guards. *)
Definition FILTER (f : filter_t) (e : task_switch) : bool :=
  match f with
  | FilterPid p => u32_eq_const (wrap32 (pid_on_entry e)) p
  | FilterExpr cond => cond e
  | FilterUser => Z.land (prev_flags e) PF_KTHREAD =? 0
  | FilterAll => true
  end.

(** [stack_traces.get_stackid(ctx, BPF_F_REUSE_STACKID)]: the kernel helper
    answers with an id under which it has stored the walked frames (taking
    the bucket over from another stack when it has to), or with a negative
    errno and the store untouched. *)
Definition get_stackid (e : task_switch) (st : gmap Z (list Z))
  : Z * gmap Z (list Z) :=
  if 0 <=? stackid_ret e
  then (stackid_ret e, <[stackid_ret e := stack_frames e]> st)
  else (stackid_ret e, st).

(** [counts.lookup_or_init(&key, &zero)] *)
Definition lookup_or_init (key : key_t) (zero : Z) (m : gmap key_t Z)
  : gmap key_t Z * Z :=
  match m !! key with
  | Some v => (m, v)
  | None => (<[key := zero]> m, zero)
  end.

(** The first block of [oncpu]: record previous thread sleep time. *)
Definition record_prev (f : filter_t) (e : task_switch) (s : gmap Z Z)
  : gmap Z Z :=
  if FILTER f e
  then <[wrap32 (prev_pid e) := wrap64 (ktime_out e)]> s
  else s.

(** [pid = bpf_get_current_pid_tgid()], truncated to [u32]. *)
Definition current_pid (e : task_switch) : Z := wrap32 (current_pid_tgid e).

(** [delta = bpf_ktime_get_ns() - *tsp; delta = delta / 1000] *)
Definition delta_us (now tsp : Z) : Z := wrap64 (now - tsp) / 1000.

Definition oncpu (f : filter_t) (e : task_switch) (t : tables) : tables :=
  (* record previous thread sleep time *)
  let start1 := record_prev f e (start t) in
  (* calculate current thread's delta time *)
  let pid := current_pid e in
  match start1 !! pid with
  | None => Tables start1 (counts t) (stack_traces t) (* missed start or filtered *)
  | Some tsp =>
      let delta := wrap64 (ktime_in e - tsp) in
      let start2 := delete pid start1 in
      let delta := delta / 1000 in
      if delta <? MINBLOCK_US
      then Tables start2 (counts t) (stack_traces t)
      else
        (* create map key *)
        let '(sid, stacks) := get_stackid e (stack_traces t) in
        let key := Key (current_comm e) sid in
        let '(counts1, val) := lookup_or_init key 0 (counts t) in
        Tables start2 (<[key := wrap64 (val + delta)]> counts1) stacks
  end.

(** The probe fires once per scheduling transition. *)
Definition run (f : filter_t) (es : list task_switch) (t : tables) : tables :=
  foldl (λ t e, oncpu f e t) t es.

End Probe.

(** ** The Python script *)

Module Script.
Import Probe.

(** [args = parser.parse_args()] *)
Record args_t := Args {
  useronly : bool;      (* -u, --useronly *)
  pid : option string;  (* -p, --pid; None when the option is not given *)
  verbose : bool;       (* -v, --verbose *)
  folded : bool;        (* -f, --folded *)
  duration : option Z   (* int(args.duration); None when int() raises *)
}.

(** Truth value of [args.pid]: [None] and the empty string are false. *)
Definition truthy (p : option string) : bool :=
  match p with
  | Some s => negb (String.eqb s "")
  | None => false
  end.

(** How [sleep(duration)] ends: the time is over, Ctrl-C interrupts it, or
    [sleep] itself raises (a duration it refuses) and nothing catches it. *)
Inductive wake := Elapsed | KeyboardInterrupt | SleepError.

#[global] Instance wake_eq_dec : EqDecision wake.
Proof. solve_decision. Defined.

(** What the script gets from outside.
    - The C compiler behind [BPF(text=...)]: the value of the [-p] text when
      it is a decimal constant ([c_constant]); when it is not, the condition
      [pid == text] as compiled, a function of what the transition holds
      ([c_condition]), or nothing when the program does not compile.
    - The Python interpreter: [bytes.decode()] with its default codec, which
      gives the text or raises [UnicodeDecodeError] ([decode], [None] when it
      raises), and what ["%s"] makes of a [bytes] value ([str_bytes]: the
      bytes themselves on Python 2, their [repr] on Python 3).
    - The kernel: [num_open_kprobes], and for every pass of the output loop
      how the sleep ends and which transitions fire meanwhile.
    - The symbol table. *)
Record host := Host {
  c_constant : string → option Z;
  c_condition : string → option (task_switch → bool);
  decode : string → option string;
  str_bytes : string → string;
  num_open_kprobes : Z;
  ksym : Z → string;
  wait : nat → wake * list task_switch
}.

(** What the script does, as seen from outside. *)
Inductive action :=
| Printed (s : string)
| BpfLoad (f : filter_t)
| AttachKprobe (event fn_name : string)
| TrapSigint
| ClearCounts
| Raise (exn : string)
| Exit.

(** Lines 106-112: the text that replaces [FILTER]. *)
Definition filter_of (h : host) (a : args_t) : option filter_t :=
  if truthy (pid a) then
    match c_constant h (default "" (pid a)) with
    | Some p => Some (FilterPid p)
    | None => FilterExpr <$> c_condition h (default "" (pid a))
    end
  else if useronly a then Some FilterUser
  else Some FilterAll.

Definition nl : string := String (Ascii.ascii_of_nat 10) "".

(** ["%d"] *)
Definition fmt_d (z : Z) : string := pretty z.

(** ["%x"] *)
Definition fmt_x (z : Z) : string :=
  if z <? 0
  then "-" +:+ NilZero.string_of_uint (N.to_hex_uint (Z.to_N (- z)))
  else NilZero.string_of_uint (N.to_hex_uint (Z.to_N z)).

Fixpoint spaces (n : nat) : string :=
  match n with
  | O => ""
  | S n' => " " +:+ spaces n'
  end.

(** ["%-16s"]: left-justified in a field of 16. *)
Definition ljust16 (s : string) : string :=
  s +:+ spaces (16 - String.length s).

(** Modelled from the spec: [stack_traces.walk] of the bcc Python module,
    which resolves a stack fingerprint to its ordered sequence of raw
    addresses, innermost first as stored. *)
Definition walk (st : gmap Z (list Z)) (sid : Z) : list Z :=
  default [] (st !! sid).

(** [sorted(items, key=...)]: a stable sort, ascending. *)
Fixpoint insert_by {A} (key : A → Z) (x : A) (l : list A) : list A :=
  match l with
  | [] => [x]
  | y :: l' => if key y <=? key x then y :: insert_by key x l' else x :: l
  end.

Definition sorted {A} (l : list A) (key : A → Z) : list A :=
  foldl (λ acc x, insert_by key x acc) [] l.

(** The body of the [for k, v in sorted(...)] loop: the texts it prints, or
    nothing when [k.name.decode()] raises, which in the folded branch comes
    before the [print]. The other branch hands [k.name] to ["%s"] as it
    is. *)
Definition render (a : args_t) (h : host) (st : gmap Z (list Z))
    (kv : key_t * Z) : option (list string) :=
  let '(k, v) := kv in
  if folded a then
    (* print folded stack output *)
    let stack := drop 1 (walk st (stack_id k)) in
    match decode h (name k) with
    | None => None
    | Some n =>
        let line := [n] ++ ((ksym h) <$> reverse stack) in
        Some [String.concat ";" line +:+ " " +:+ fmt_d v]
    end
  else
    (* print default multi-line stack output *)
    Some (((λ addr, "    " +:+ ljust16 (fmt_x addr) +:+ " " +:+ ksym h addr)
             <$> walk st (stack_id k))
          ++ ["    " +:+ ljust16 "-" +:+ " " +:+ str_bytes h (name k)]
          ++ ["        " +:+ fmt_d v +:+ nl]).

(** The [for] loop over the entries: what it prints, and whether it gets
    to its end ([false] when an entry raises; what was printed before it
    stays printed). *)
Fixpoint render_each (a : args_t) (h : host) (st : gmap Z (list Z))
    (l : list (key_t * Z)) : list string * bool :=
  match l with
  | [] => ([], true)
  | kv :: l' =>
      match render a h st kv with
      | None => ([], false)
      | Some ls =>
          let '(rest, ok) := render_each a h st l' in (ls ++ rest, ok)
      end
  end.

(** Everything the [for] loop prints for the tables. *)
Definition render_all (a : args_t) (h : host) (t : tables)
  : list string * bool :=
  render_each a h (stack_traces t) (sorted (map_to_list (counts t)) snd).

(** How a pass through the body of [while (1)] ends. *)
Inductive ctl := Continues | Exits.

(** What the script leaves behind: what it did, and the tables. *)
Record finished := Finished {
  actions : list action;
  final : tables
}.

(** How many times the script cleared [counts]. *)
Definition drains (r : finished) : nat :=
  length (actions r ≫= λ x, match x with ClearCounts => [x] | _ => [] end).

(** The body of the output loop, from the end of [sleep] on. Only [sleep]
    is inside the [try]: an entry that raises ends the script there, with
    [counts] as it is. *)
Definition loop_body (a : args_t) (h : host) (w : wake) (t : tables)
  : finished * ctl :=
  match w with
  | SleepError => (Finished [Raise "sleep"] t, Exits)
  | _ =>
      let trap := match w with
                  | KeyboardInterrupt => [TrapSigint]
                  | _ => []
                  end in
      let '(lines, ok) := render_all a h t in
      let out := trap
        ++ (if folded a then [] else [Printed ""])
        ++ (Printed <$> lines) in
      if ok then
        (* counts.clear() *)
        let t' := Tables (start t) ∅ (stack_traces t) in
        (Finished
           (out ++ [ClearCounts]
                ++ (if folded a then [] else [Printed "Detaching..."])
                ++ [Exit])
           t',
         Exits)
      else (Finished (out ++ [Raise "UnicodeDecodeError"]) t, Exits)
  end.

(** [while (1)]: pass [n] sleeps while the probe fires, then runs the body. *)
Fixpoint output_loop (fuel : nat) (n : nat) (a : args_t) (h : host)
    (f : filter_t) (t : tables) : option finished :=
  match fuel with
  | O => None
  | S fuel' =>
      let '(w, es) := wait h n in
      let '(r, c) := loop_body a h w (run f es t) in
      match c with
      | Exits => Some r
      | Continues =>
          (λ r', Finished (actions r ++ actions r') (final r'))
            <$> output_loop fuel' (S n) a h f (final r)
      end
  end.

(** The header printed before the loop. *)
Definition header (a : args_t) (d : Z) : list action :=
  if folded a then []
  else [Printed ("Tracing off-CPU time (us) by kernel stack" +:+
          (if d <? 99999999 then " for " +:+ fmt_d d +:+ " secs."
           else "... Hit Ctrl-C to end."))].

(** The script from [parse_args] to [exit]. *)
Definition main (fuel : nat) (a : args_t) (h : host) : option finished :=
  match duration a with
  | None => Some (Finished [Raise "ValueError"] no_tables)
  | Some d =>
      if truthy (pid a) && useronly a
      then Some (Finished [Printed "ERROR: use either -p or -u."; Exit]
                          no_tables)
      else
        match filter_of h a with
        | None => Some (Finished [Raise "Exception"] no_tables)
        | Some f =>
            let attach := [BpfLoad f;
                           AttachKprobe "finish_task_switch" "oncpu"] in
            if num_open_kprobes h =? 0
            then Some (Finished
                         (attach ++ [Printed "0 functions traced. Exiting."; Exit])
                         no_tables)
            else
              (λ r, Finished (attach ++ header a d ++ actions r) (final r))
                <$> output_loop fuel 0 a h f no_tables
        end
  end.

(** The attach attempts among the actions of the script. *)
Definition attach_attempts (l : list action) : nat :=
  length (l ≫= λ x, match x with AttachKprobe _ _ => [x] | _ => [] end).

(** The texts the script printed. *)
Definition printed (l : list action) : list string :=
  l ≫= λ x, match x with Printed s => [s] | _ => [] end.

End Script.

(** ** Reading a sequence of transitions *)

Module Trace.
Import Probe.

(** The key under which a transition accounts the incoming thread. *)
Definition key_of (e : task_switch) : key_t :=
  Key (current_comm e) (stackid_ret e).

(** The sample of a transition: the key and the delta that reach the final
    addition into [counts], if the transition gets that far. *)
Definition sample (f : filter_t) (e : task_switch) (t : tables)
  : option (key_t * Z) :=
  match record_prev f e (start t) !! current_pid e with
  | None => None
  | Some tsp =>
      let d := delta_us (ktime_in e) tsp in
      if d <? MINBLOCK_US then None else Some (key_of e, d)
  end.

(** The samples of a sequence of transitions, in order. *)
Fixpoint samples (f : filter_t) (es : list task_switch) (t : tables)
  : list (key_t * Z) :=
  match es with
  | [] => []
  | e :: es' => option_list (sample f e t) ++ samples f es' (oncpu f e t)
  end.

(** The deltas accounted to one key. *)
Fixpoint deltas_of (k : key_t) (l : list (key_t * Z)) : list Z :=
  match l with
  | [] => []
  | s :: l' => if decide (s.1 = k) then s.2 :: deltas_of k l' else deltas_of k l'
  end.

Definition Zsum (l : list Z) : Z := foldr Z.add 0 l.

(** A thread going off the processor and coming back: the transition that
    switches it out, and the one that switches it in. *)
Definition off_on : Type := task_switch * task_switch.

(** On-processor timestamp minus recorded off-processor timestamp, in
    microseconds. *)
Definition pair_delta (p : off_on) : Z :=
  (ktime_in p.2 - ktime_out p.1) / 1000.

Definition transitions (ps : list off_on) : list task_switch :=
  ps ≫= λ p, [p.1; p.2].

(** The clock readings of the pairs, in the order they are taken. *)
Definition timeline (ps : list off_on) : list Z :=
  ps ≫= λ p, [ktime_out p.1; ktime_in p.2].

(** A pair of thread [tid] accounted to key [k]: the first transition
    switches [tid] out, passes the filter, and brings in another thread
    accounted elsewhere; the second brings [tid] back in under [k], after at
    least the minimum time. *)
Definition off_on_pair (f : filter_t) (tid : Z) (k : key_t) (p : off_on)
  : Prop :=
  wrap32 (prev_pid p.1) = tid ∧ FILTER f p.1 = true ∧
  current_pid p.1 ≠ tid ∧ key_of p.1 ≠ k ∧
  current_pid p.2 = tid ∧ wrap32 (prev_pid p.2) ≠ tid ∧ key_of p.2 = k ∧
  MINBLOCK_US ≤ pair_delta p.

End Trace.

(** ** A small session, for examples *)

Module Example.
Import Probe Script.

(** Two addresses that resolve to two symbols. *)
Definition frameA : Z := 0xffffffff81000010.
Definition frameB : Z := 0xffffffff81000020.

Definition symbols (addr : Z) : string :=
  if addr =? frameA then "frameA"
  else if addr =? frameB then "frameB"
  else "[unknown]".

(** A compiler that reads one constant. *)
Definition constants (s : string) : option Z :=
  if String.eqb s "185" then Some 185 else None.

(** ... and takes the text [pid], which makes the condition [pid == pid]. *)
Definition conditions (s : string) : option (task_switch → bool) :=
  if String.eqb s "pid" then Some (λ _, true) else None.

Definition bytes_of (s : string) : list Z :=
  (λ c, Z.of_N (Ascii.N_of_ascii c)) <$> String.list_ascii_of_string s.

(** Python 2: the default codec is ASCII, and ["%s"] of a [str] is the
    [str]. *)
Definition python2_decode (s : string) : option string :=
  if forallb (λ b, b <? 128) (bytes_of s) then Some s else None.

Definition python2_str (s : string) : string := s.

(** Python 3: the default codec is UTF-8 (a text is kept as its UTF-8
    bytes), and ["%s"] of a [bytes] is its [repr]. *)
Definition cont (b : Z) : bool := (0x80 <=? b) && (b <=? 0xBF).

Definition second_of_3 (b0 b1 : Z) : bool :=
  if b0 =? 0xE0 then (0xA0 <=? b1) && (b1 <=? 0xBF)
  else if b0 =? 0xED then (0x80 <=? b1) && (b1 <=? 0x9F)
  else cont b1.

Definition second_of_4 (b0 b1 : Z) : bool :=
  if b0 =? 0xF0 then (0x90 <=? b1) && (b1 <=? 0xBF)
  else if b0 =? 0xF4 then (0x80 <=? b1) && (b1 <=? 0x8F)
  else cont b1.

Fixpoint utf8_valid (l : list Z) : bool :=
  match l with
  | [] => true
  | b0 :: l1 =>
      if b0 <? 0x80 then utf8_valid l1
      else
        match l1 with
        | [] => false
        | b1 :: l2 =>
            if (0xC2 <=? b0) && (b0 <=? 0xDF) then cont b1 && utf8_valid l2
            else
              match l2 with
              | [] => false
              | b2 :: l3 =>
                  if (0xE0 <=? b0) && (b0 <=? 0xEF)
                  then second_of_3 b0 b1 && cont b2 && utf8_valid l3
                  else
                    match l3 with
                    | [] => false
                    | b3 :: l4 =>
                        (0xF0 <=? b0) && (b0 <=? 0xF4) && second_of_4 b0 b1
                        && cont b2 && cont b3 && utf8_valid l4
                    end
              end
        end
  end.

Definition python3_decode (s : string) : option string :=
  if utf8_valid (bytes_of s) then Some s else None.

Definition hex_digit (n : Z) : string :=
  NilZero.string_of_uint (N.to_hex_uint (Z.to_N n)).

Definition repr_byte (quote : Z) (c : Ascii.ascii) : string :=
  let b := Z.of_N (Ascii.N_of_ascii c) in
  if (b =? quote) || (b =? 92) then String (Ascii.ascii_of_nat 92) (String c "")
  else if b =? 9 then String (Ascii.ascii_of_nat 92) "t"
  else if b =? 10 then String (Ascii.ascii_of_nat 92) "n"
  else if b =? 13 then String (Ascii.ascii_of_nat 92) "r"
  else if (b <? 32) || (127 <=? b)
  then String (Ascii.ascii_of_nat 92) "x" +:+ hex_digit (b / 16)
       +:+ hex_digit (b mod 16)
  else String c "".

Definition python3_str (s : string) : string :=
  let bs := bytes_of s in
  let quote :=
    if existsb (Z.eqb 39) bs && negb (existsb (Z.eqb 34) bs)
    then 34 else 39 in
  let q := String (Ascii.ascii_of_N (Z.to_N quote)) "" in
  "b" +:+ q +:+ String.concat "" (repr_byte quote <$> String.list_ascii_of_string s)
  +:+ q.

Definition quiet_host : host :=
  Host constants conditions python2_decode python2_str 1 symbols
       (λ _, (Elapsed, [])).

(** The same host, on which Ctrl-C ends the sleep after thread 10 has
    gone off the processor and come back. *)
Definition busy_host : host :=
  Host constants conditions python2_decode python2_str 1 symbols
       (λ _, (KeyboardInterrupt,
              [TaskSwitch 10 0 0 20 1000 1000 "idle" 3 [frameB];
               TaskSwitch 20 0 0 10 5000 5000 "worker" 7 [frameA; frameB]])).

Definition python3_host : host :=
  Host constants conditions python3_decode python3_str 1 symbols
       (λ _, (Elapsed, [])).

(** One entry: thread name "worker", stored stack [frameA; frameB]
    (innermost first), 1500 microseconds. *)
Definition worker_tables : tables :=
  Tables ∅ {[ Key "worker" 7 := 1500 ]} {[ 7 := [frameA; frameB] ]}.

Definition folded_args : args_t := Args false None false true (Some 5).
Definition plain_args : args_t := Args false None false false (Some 5).

(** Both filters at once: [-u -p 185]. *)
Definition both_args : args_t := Args true (Some "185") false false (Some 5).

(** Thread 10 goes off the processor at 1000 ns and thread 20 comes on. *)
Definition sw_10_20 : task_switch :=
  TaskSwitch 10 0 0 20 1000 1000 "idle" 3 [frameB].

(** Thread 20 goes off at 5000 ns and thread 10 comes back on. *)
Definition sw_20_10 : task_switch :=
  TaskSwitch 20 0 0 10 5000 5000 "worker" 7 [frameA; frameB].

(** Thread 20 comes on 900 ns after the timestamp of [pending_20]. *)
Definition sw_short : task_switch :=
  TaskSwitch 10 0 0 20 1900 1900 "worker" 7 [frameA; frameB].

Definition pending_20 : tables := Tables {[ 20 := 1000 ]} ∅ ∅.

(** Thread 20 off at 1000 ns and back at 5500 ns, off again at 9000 ns and
    back at 12000 ns; thread 10 runs in between. *)
Definition worker_pairs : list (task_switch * task_switch) :=
  [(TaskSwitch 20 0 0 10 1000 1000 "idle" 3 [frameB],
    TaskSwitch 10 0 0 20 5000 5500 "worker" 7 [frameA; frameB]);
   (TaskSwitch 20 0 0 10 9000 9000 "idle" 3 [frameB],
    TaskSwitch 10 0 0 20 11000 12000 "worker" 7 [frameA; frameB])].

End Example.

Import Probe Script Trace.

(** ** Arithmetic of the wrap-around *)

Lemma wrap64_range z : 0 ≤ wrap64 z < 2 ^ 64.
Proof. unfold wrap64. apply Z.mod_pos_bound. lia. Qed.

Lemma wrap64_small z : 0 ≤ z < 2 ^ 64 → wrap64 z = z.
Proof. intros H. unfold wrap64. by apply Z.mod_small. Qed.

Lemma wrap64_add_l a b : wrap64 (wrap64 a + b) = wrap64 (a + b).
Proof. unfold wrap64. by rewrite Zplus_mod_idemp_l. Qed.

Lemma div1000_bounds a : 0 ≤ a → 0 ≤ a / 1000 ≤ a.
Proof.
  intros Ha. pose proof (Z.mul_div_le a 1000 ltac:(lia)).
  pose proof (Z.div_pos a 1000 Ha ltac:(lia)). lia.
Qed.

Lemma delta_us_range now tsp : 0 ≤ delta_us now tsp < 2 ^ 64.
Proof.
  unfold delta_us. pose proof (wrap64_range (now - tsp)).
  pose proof (div1000_bounds (wrap64 (now - tsp))). lia.
Qed.

(** ** One transition *)

Section OneTransition.
Variable f : filter_t.
Implicit Types (e : task_switch) (t : tables) (k : key_t).

(** What [oncpu] leaves in the Pending-Start Table. *)
Lemma oncpu_start e t :
  start (oncpu f e t) =
  match record_prev f e (start t) !! current_pid e with
  | None => record_prev f e (start t)
  | Some _ => delete (current_pid e) (record_prev f e (start t))
  end.
Proof.
  unfold oncpu. destruct (record_prev f e (start t) !! current_pid e); [|done].
  simpl. destruct (_ <? _); [done|].
  unfold get_stackid, lookup_or_init.
  by destruct (0 <=? _), (counts t !! _).
Qed.

(** What [oncpu] leaves in the Aggregation Table. *)
Lemma oncpu_counts e t :
  counts (oncpu f e t) =
  match sample f e t with
  | None => counts t
  | Some (k, d) => <[k := wrap64 (default 0 (counts t !! k) + d)]> (counts t)
  end.
Proof.
  unfold oncpu, sample, delta_us, key_of.
  destruct (record_prev f e (start t) !! current_pid e); [|done].
  simpl. destruct (_ <? _); [done|].
  unfold get_stackid, lookup_or_init.
  destruct (0 <=? _); simpl;
    destruct (counts t !! _) eqn:Hk; simpl; try done;
    by rewrite insert_insert_eq.
Qed.

(** A sample carries a delta that passed the threshold. *)
Lemma sample_passes e t k d :
  sample f e t = Some (k, d) →
  k = key_of e ∧ MINBLOCK_US ≤ d < 2 ^ 64 ∧
  ∃ tsp, record_prev f e (start t) !! current_pid e = Some tsp ∧
         d = delta_us (ktime_in e) tsp.
Proof.
  unfold sample. destruct (_ !! _) as [tsp|]; [|done].
  simpl. destruct (_ <? _) eqn:Hlt; [done|].
  intros [= <- <-]. apply Z.ltb_ge in Hlt.
  pose proof (delta_us_range (ktime_in e) tsp). eauto with lia.
Qed.

(** The first block does not touch the entry of a thread other than the
    one switched out. *)
Lemma record_prev_other e (s : gmap Z Z) (tid : Z) :
  FILTER f e = false ∨ wrap32 (prev_pid e) ≠ tid →
  record_prev f e s !! tid = s !! tid.
Proof.
  unfold record_prev. intros [-> | Hne]; [done|].
  destruct (FILTER f e); [|done]. by rewrite lookup_insert_ne.
Qed.

(** A thread without a PendingStart entry, switched in by a transition that
    does not record it: [oncpu] returns at the lookup. *)
Lemma oncpu_missed e t :
  start t !! current_pid e = None →
  FILTER f e = false ∨ wrap32 (prev_pid e) ≠ current_pid e →
  oncpu f e t = Tables (record_prev f e (start t)) (counts t) (stack_traces t)
  ∧ record_prev f e (start t) !! current_pid e = None.
Proof.
  intros Hnone Hprev.
  assert (Hrec : record_prev f e (start t) !! current_pid e = None).
  { by rewrite record_prev_other. }
  unfold oncpu. by rewrite Hrec.
Qed.

End OneTransition.

(** ** Missed starts and the threshold *)

(** C5: a switch-in of a thread that has no PendingStart entry (the
    transition does not record that same thread either) adds nothing to the
    Aggregation Table: [counts] and the stack store come out as they went in,
    the table has as many entries as before, and the thread still has no
    PendingStart entry. *)
Theorem missed_start_leaves_counts (f : filter_t) (e : task_switch)
    (t : tables) :
  start t !! current_pid e = None →
  FILTER f e = false ∨ wrap32 (prev_pid e) ≠ current_pid e →
  counts (oncpu f e t) = counts t ∧
  size (counts (oncpu f e t)) = size (counts t) ∧
  stack_traces (oncpu f e t) = stack_traces t ∧
  start (oncpu f e t) !! current_pid e = None.
Proof.
  intros Hnone Hprev.
  destruct (oncpu_missed f e t Hnone Hprev) as [-> Hrec]. by simpl.
Qed.

Lemma missed_start_leaves_counts_witness :
  counts (oncpu FilterAll Example.sw_10_20 Example.worker_tables)
    = counts Example.worker_tables ∧
  size (counts (oncpu FilterAll Example.sw_10_20 Example.worker_tables))
    = size (counts Example.worker_tables) ∧
  stack_traces (oncpu FilterAll Example.sw_10_20 Example.worker_tables)
    = stack_traces Example.worker_tables ∧
  start (oncpu FilterAll Example.sw_10_20 Example.worker_tables)
    !! current_pid Example.sw_10_20 = None.
Proof.
  apply (missed_start_leaves_counts FilterAll Example.sw_10_20
           Example.worker_tables).
  - reflexivity.
  - right. vm_compute. discriminate.
Defined.

(** C9: the PendingStart entry of the incoming thread is deleted before the
    threshold is looked at. When the delta is below the threshold the sample
    is dropped, and still the entry is gone: a later switch-in of the same
    thread, with no new switch-out of it recorded, finds nothing to pair with
    and adds nothing. *)
Theorem pending_consumed_below_threshold (f : filter_t) (e : task_switch)
    (t : tables) (tsp : Z) :
  record_prev f e (start t) !! current_pid e = Some tsp →
  delta_us (ktime_in e) tsp < MINBLOCK_US →
  counts (oncpu f e t) = counts t ∧
  start (oncpu f e t) = delete (current_pid e) (record_prev f e (start t)) ∧
  start (oncpu f e t) !! current_pid e = None ∧
  ∀ e2 : task_switch,
    current_pid e2 = current_pid e →
    FILTER f e2 = false ∨ wrap32 (prev_pid e2) ≠ current_pid e2 →
    counts (oncpu f e2 (oncpu f e t)) = counts t.
Proof.
  intros Hpend Hlt.
  assert (Hc : counts (oncpu f e t) = counts t).
  { rewrite oncpu_counts. unfold sample. rewrite Hpend. simpl.
    by apply Z.ltb_lt in Hlt as ->. }
  assert (Hs : start (oncpu f e t)
               = delete (current_pid e) (record_prev f e (start t))).
  { rewrite oncpu_start. by rewrite Hpend. }
  assert (Hgone : start (oncpu f e t) !! current_pid e = None).
  { rewrite Hs. apply lookup_delete_eq. }
  repeat split; try done.
  intros e2 Hsame Hprev. rewrite <- Hsame in Hgone.
  transitivity (counts (oncpu f e t)); [|done].
  by destruct (oncpu_missed f e2 (oncpu f e t) Hgone Hprev) as [-> _].
Qed.

Lemma pending_consumed_below_threshold_witness :
  counts (oncpu FilterAll Example.sw_short Example.pending_20)
    = counts Example.pending_20 ∧
  start (oncpu FilterAll Example.sw_short Example.pending_20) !! 20 = None.
Proof.
  destruct (pending_consumed_below_threshold FilterAll Example.sw_short
              Example.pending_20 1000) as (Hc & _ & Hgone & _).
  - reflexivity.
  - vm_compute. reflexivity.
  - split; [exact Hc | exact Hgone].
Defined.

(** ** Sequences of transitions *)

Section Sequences.
Variable f : filter_t.
Implicit Types (e : task_switch) (t : tables) (k : key_t).

Lemma run_cons e es t : run f (e :: es) t = run f es (oncpu f e t).
Proof. done. Qed.

(** Every sample passed the threshold. *)
Lemma samples_pass es t :
  Forall (λ s, MINBLOCK_US ≤ s.2 ∧ 0 < s.2) (samples f es t).
Proof.
  revert t. induction es as [|e es IH]; intros t; simpl; [constructor|].
  apply Forall_app. split; [|apply IH].
  destruct (sample f e t) as [[k d]|] eqn:Hs; simpl; [|constructor].
  apply sample_passes in Hs as (_ & Hd & _).
  constructor; [|constructor]. simpl. unfold MINBLOCK_US in *. lia.
Qed.

Lemma deltas_of_app k (l1 l2 : list (key_t * Z)) :
  deltas_of k (l1 ++ l2) = deltas_of k l1 ++ deltas_of k l2.
Proof.
  induction l1 as [|s l1 IH]; simpl; [done|].
  destruct (decide (s.1 = k)); simpl; by rewrite IH.
Qed.

(** [counts] holds, for every key, the wrapped sum of what it held and of
    the deltas of the samples of that key: each is added once. *)
Lemma run_counts es t k :
  counts (run f es t) !! k =
  match deltas_of k (samples f es t) with
  | [] => counts t !! k
  | ds => Some (wrap64 (default 0 (counts t !! k) + Zsum ds))
  end.
Proof.
  revert t. induction es as [|e es IH]; intros t; [done|].
  rewrite run_cons, IH. simpl samples. rewrite deltas_of_app.
  rewrite oncpu_counts.
  destruct (sample f e t) as [[k' d]|] eqn:Hs; simpl; [|done].
  destruct (decide (k' = k)) as [->|Hne]; simpl.
  - rewrite lookup_insert_eq. simpl.
    destruct (deltas_of k (samples f es (oncpu f e t))) as [|d' ds]; simpl.
    + by rewrite Z.add_0_r.
    + rewrite wrap64_add_l. f_equal. f_equal. unfold Zsum. simpl. lia.
  - by rewrite lookup_insert_ne.
Qed.

End Sequences.

(** C4: from an empty Aggregation Table, what [counts] holds for a key after
    any sequence of transitions is the (64-bit) sum of the deltas of the
    samples of that key, and every sample carries a delta
    [(now - start) / 1000] that is at least the threshold of 1 microsecond,
    so strictly positive; a transition whose delta is below the threshold
    yields no sample and leaves [counts] as it was. *)
Theorem counts_sum_passing_deltas (f : filter_t) (es : list task_switch)
    (t : tables) (k : key_t) :
  counts t = ∅ →
  Forall (λ s, MINBLOCK_US ≤ s.2 ∧ 0 < s.2) (samples f es t) ∧
  counts (run f es t) !! k =
    match deltas_of k (samples f es t) with
    | [] => None
    | ds => Some (wrap64 (Zsum ds))
    end ∧
  ∀ (e : task_switch) (t0 : tables) (tsp : Z),
    record_prev f e (start t0) !! current_pid e = Some tsp →
    delta_us (ktime_in e) tsp < MINBLOCK_US →
    sample f e t0 = None ∧ counts (oncpu f e t0) = counts t0.
Proof.
  intros Hempty. split; [apply samples_pass|]. split.
  - rewrite run_counts, Hempty, lookup_empty. done.
  - intros e t0 tsp Hpend Hlt.
    assert (Hs : sample f e t0 = None).
    { unfold sample. rewrite Hpend. simpl. by apply Z.ltb_lt in Hlt as ->. }
    split; [done|]. by rewrite oncpu_counts, Hs.
Qed.

Lemma counts_sum_passing_deltas_witness :
  counts (run FilterAll [Example.sw_10_20; Example.sw_20_10] no_tables)
    !! Key "worker" 7 = Some 4.
Proof.
  destruct (counts_sum_passing_deltas FilterAll
              [Example.sw_10_20; Example.sw_20_10] no_tables
              (Key "worker" 7)) as (_ & Hsum & _).
  - reflexivity.
  - rewrite Hsum. vm_compute. reflexivity.
Defined.

(** ** Pairs of one thread *)

Section Pairs.
Variables (f : filter_t) (tid : Z) (k : key_t).
Implicit Types (p : off_on) (ps : list off_on) (t : tables).

Lemma transitions_cons p ps :
  transitions (p :: ps) = p.1 :: p.2 :: transitions ps.
Proof. done. Qed.

Lemma timeline_cons p ps :
  timeline (p :: ps) = ktime_out p.1 :: ktime_in p.2 :: timeline ps.
Proof. done. Qed.

(** On a clock that does not go back, the deltas of successive pairs fit
    between the first reading and the last. *)
Lemma pair_deltas_bounded ps (lo : Z) :
  StronglySorted Z.le (timeline ps) →
  Forall (λ x, lo ≤ x < 2 ^ 64) (timeline ps) →
  0 ≤ lo < 2 ^ 64 →
  0 ≤ Zsum (pair_delta <$> ps) ≤ 2 ^ 64 - 1 - lo.
Proof.
  revert lo. induction ps as [|p ps IH]; intros lo Hsort Hrange Hlo.
  - simpl. lia.
  - rewrite timeline_cons in Hsort, Hrange.
    apply StronglySorted_inv in Hsort as [Hsort Hout].
    apply StronglySorted_inv in Hsort as [Hsort Hin].
    apply Forall_cons in Hout as [Hoi _].
    apply Forall_cons in Hrange as [Ho Hrange].
    apply Forall_cons in Hrange as [Hi Hrange].
    assert (Hrange' : Forall (λ x, ktime_in p.2 ≤ x < 2 ^ 64) (timeline ps)).
    { apply Forall_forall. intros x Hx.
      rewrite Forall_forall in Hin, Hrange.
      specialize (Hin x Hx). specialize (Hrange x Hx). simpl in *. lia. }
    specialize (IH (ktime_in p.2) Hsort Hrange' ltac:(lia)).
    rewrite fmap_cons. unfold Zsum in *. simpl in *.
    pose proof (div1000_bounds (ktime_in p.2 - ktime_out p.1) ltac:(lia)).
    fold (pair_delta p) in *.
    clear - IH H Hoi Ho Hi Hlo. lia.
Qed.

(** One pair: the switch-out records the timestamp, the switch-in takes it
    and adds the delta of the pair under [k]. *)
Lemma pair_counts p t :
  off_on_pair f tid k p →
  0 ≤ ktime_out p.1 → ktime_out p.1 ≤ ktime_in p.2 → ktime_in p.2 < 2 ^ 64 →
  counts (oncpu f p.2 (oncpu f p.1 t)) !! k =
  Some (wrap64 (default 0 (counts t !! k) + pair_delta p)).
Proof.
  intros (Hprev & Hfilter & Hcur & Hkey & Hin & Hprev2 & Hkey2 & Hmin)
         Ho Hoi Hi.
  set (t1 := oncpu f p.1 t).
  assert (Hc1 : counts t1 !! k = counts t !! k).
  { unfold t1. rewrite oncpu_counts.
    destruct (sample f p.1 t) as [[k' d]|] eqn:Hs; [|done].
    apply sample_passes in Hs as (-> & _). by rewrite lookup_insert_ne. }
  assert (Hs1 : start t1 !! tid = Some (ktime_out p.1)).
  { unfold t1. rewrite oncpu_start.
    assert (Hrec : record_prev f p.1 (start t) !! tid
                   = Some (ktime_out p.1)).
    { unfold record_prev. rewrite Hfilter, Hprev, lookup_insert_eq.
      by rewrite wrap64_small by lia. }
    destruct (record_prev f p.1 (start t) !! current_pid p.1); [|done].
    by rewrite lookup_delete_ne. }
  assert (Hs2 : sample f p.2 t1 = Some (k, pair_delta p)).
  { unfold sample. rewrite Hin, record_prev_other by (by right).
    rewrite Hs1. simpl. unfold delta_us.
    rewrite wrap64_small by lia. fold (pair_delta p).
    apply Z.ltb_ge in Hmin as ->. by rewrite Hkey2. }
  rewrite oncpu_counts, Hs2, lookup_insert_eq. by rewrite Hc1.
Qed.

(** Pairs in sequence: the deltas add up, modulo the width of the value. *)
Lemma pairs_counts ps t :
  Forall (off_on_pair f tid k) ps →
  StronglySorted Z.le (timeline ps) →
  Forall (λ x, 0 ≤ x < 2 ^ 64) (timeline ps) →
  counts (run f (transitions ps) t) !! k =
  match ps with
  | [] => counts t !! k
  | _ => Some (wrap64 (default 0 (counts t !! k) + Zsum (pair_delta <$> ps)))
  end.
Proof.
  revert t. induction ps as [|p ps IH]; intros t Hps Hsort Hrange; [done|].
  apply Forall_cons in Hps as [Hp Hps].
  rewrite timeline_cons in Hsort, Hrange.
  apply StronglySorted_inv in Hsort as [Hsort Hout].
  apply StronglySorted_inv in Hsort as [Hsort _].
  apply Forall_cons in Hout as [Hoi _].
  apply Forall_cons in Hrange as [Ho Hrange].
  apply Forall_cons in Hrange as [Hi Hrange].
  rewrite transitions_cons, !run_cons, (IH _ Hps Hsort Hrange).
  rewrite (pair_counts p t Hp) by lia.
  destruct ps as [|p' ps'].
  - simpl. by rewrite Z.add_0_r.
  - simpl default. rewrite wrap64_add_l. f_equal. f_equal.
    rewrite (fmap_cons _ p). unfold Zsum. simpl. lia.
Qed.

End Pairs.

(** C1: for every non-empty sequence of (switch-out, switch-in) pairs of one
    thread identifier, each with an off-processor time at or above the
    threshold, accounted to one key that nothing else is accounted to
    meanwhile and that the Aggregation Table does not hold yet, on a 64-bit
    clock that does not go back, [counts] ends up holding for that key
    exactly the sum of the deltas of the pairs, each delta being the
    on-processor timestamp minus the recorded off-processor timestamp,
    divided by 1000. *)
Theorem pairs_aggregate_exact_sum (f : filter_t) (tid : Z) (k : key_t)
    (ps : list off_on) (t : tables) :
  ps ≠ [] →
  Forall (off_on_pair f tid k) ps →
  StronglySorted Z.le (timeline ps) →
  Forall (λ x, 0 ≤ x < 2 ^ 64) (timeline ps) →
  counts t !! k = None →
  counts (run f (transitions ps) t) !! k = Some (Zsum (pair_delta <$> ps)).
Proof.
  intros Hne Hps Hsort Hrange Hfresh.
  rewrite (pairs_counts f tid k ps t Hps Hsort Hrange), Hfresh.
  destruct ps as [|p ps']; [done|]. simpl default.
  pose proof (pair_deltas_bounded (p :: ps') 0 Hsort Hrange ltac:(lia)).
  rewrite Z.add_0_l, wrap64_small by lia. done.
Qed.

Lemma pairs_aggregate_exact_sum_witness :
  counts (run FilterAll (transitions Example.worker_pairs) no_tables)
    !! Key "worker" 7 = Some 7.
Proof.
  apply (pairs_aggregate_exact_sum FilterAll 20 (Key "worker" 7)
           Example.worker_pairs no_tables).
  - discriminate.
  - repeat constructor; vm_compute; congruence.
  - repeat constructor; vm_compute; congruence.
  - repeat constructor; vm_compute; congruence.
  - reflexivity.
Defined.

(** ** The single-pid filter *)

(** C3: with [-p 185] the text [pid == 185] replaces [FILTER], and the [pid]
    it tests is the local of [oncpu] before [pid = prev->pid] has run, not the
    outgoing thread: the test gives the same answer whatever thread is
    switched out. When thread 185 is switched out while the local holds 0, no
    PendingStart entry is created for it; when thread 7 is switched out while
    the local holds 185, one is created for thread 7. *)
Theorem pid_filter_tests_unset_local :
  filter_of Example.quiet_host (Args false (Some "185") false false (Some 5))
    = Some (FilterPid 185) ∧
  (∀ p prev prev' flags garbage cur t1 t2 comm sid frames,
     FILTER (FilterPid p)
            (TaskSwitch prev flags garbage cur t1 t2 comm sid frames)
     = FILTER (FilterPid p)
              (TaskSwitch prev' flags garbage cur t1 t2 comm sid frames)) ∧
  start (oncpu (FilterPid 185)
               (TaskSwitch 185 0 0 20 1000 1000 "idle" 3 []) no_tables)
    !! 185 = None ∧
  start (oncpu (FilterPid 185)
               (TaskSwitch 7 0 185 20 1000 1000 "idle" 3 []) no_tables)
    !! 7 = Some 1000.
Proof. repeat split; reflexivity. Qed.

(** ** Rendering *)

Section Rendering.
Variables (a : args_t) (h : host).
Implicit Types (st : gmap Z (list Z)) (k : key_t) (v : Z) (t : tables).

Lemma render_all_empty t : counts t = ∅ → render_all a h t = ([], true).
Proof. unfold render_all. intros ->. by rewrite map_to_list_empty. Qed.

Lemma render_folded st k v (n : string) :
  folded a = true →
  decode h (name k) = Some n →
  render a h st (k, v) =
  Some [String.concat ";"
          (n :: (ksym h <$> reverse (drop 1 (walk st (stack_id k)))))
        +:+ " " +:+ fmt_d v].
Proof. unfold render. by intros -> ->. Qed.

Lemma render_folded_raises st k v :
  folded a = true →
  decode h (name k) = None →
  render a h st (k, v) = None.
Proof. unfold render. by intros -> ->. Qed.

Lemma render_each_cons st (kv : key_t * Z) (l : list (key_t * Z))
    (ls : list string) :
  render a h st kv = Some ls →
  render_each a h st (kv :: l) =
  (ls ++ (render_each a h st l).1, (render_each a h st l).2).
Proof. simpl. intros ->. by destruct (render_each a h st l). Qed.

Lemma render_each_cons_raises st (kv : key_t * Z) (l : list (key_t * Z)) :
  render a h st kv = None →
  render_each a h st (kv :: l) = ([], false).
Proof. simpl. by intros ->. Qed.

(** With every name decoding, the folded loop gets to its end with one
    line per entry. *)
Lemma render_each_folded st (l : list (key_t * Z)) :
  folded a = true →
  Forall (λ kv, is_Some (decode h (name kv.1))) l →
  (render_each a h st l).2 = true ∧
  length (render_each a h st l).1 = length l.
Proof.
  intros Hf. induction 1 as [|[k v] l [n Hn] Hl [IHok IHlen]]; [done|].
  rewrite (render_each_cons st (k, v) l _ (render_folded st k v n Hf Hn)).
  simpl. by rewrite IHok, IHlen.
Qed.

(** With a name that does not decode, it stops short of it. *)
Lemma render_each_raises st (l : list (key_t * Z)) (k : key_t) (v : Z) :
  folded a = true →
  (k, v) ∈ l →
  decode h (name k) = None →
  (render_each a h st l).2 = false ∧
  (length (render_each a h st l).1 < length l)%nat.
Proof.
  intros Hf Hin Hk. induction l as [|[k' v'] l IH]; [by inversion Hin|].
  destruct (decode h (name k')) as [n|] eqn:Hn.
  - rewrite (render_each_cons st (k', v') l _
               (render_folded st k' v' n Hf Hn)).
    apply elem_of_cons in Hin as [Heq|Hin]; [congruence|].
    destruct (IH Hin) as [IHok IHlen]. simpl. split; [done|lia].
  - rewrite (render_each_cons_raises st (k', v') l
               (render_folded_raises st k' v' Hf Hn)).
    simpl. split; [done|lia].
Qed.

(** The multi-line loop decodes nothing and gets to its end. *)
Lemma render_each_multiline st (l : list (key_t * Z)) :
  folded a = false → (render_each a h st l).2 = true.
Proof.
  intros Hf. induction l as [|[k v] l IH]; [done|].
  simpl. unfold render. rewrite Hf.
  by destruct (render_each a h st l).
Qed.

End Rendering.

(** C2, as the code has it: in the folded format an entry whose name
    decodes is one line, made of the name, then the symbol of every frame
    of the stored stack but the first stored (innermost) one, outermost
    first, joined by semicolons, then one space and the duration in decimal.
    An entry whose stack has no frame is the name, the space and the
    duration. For the entry named "worker" with the stored stack
    [frameA; frameB] and the duration 1500 the line is
    [worker;frameB 1500]. *)
Theorem folded_line_skips_innermost (a : args_t) (h : host)
    (st : gmap Z (list Z)) (k : key_t) (v : Z) (n : string) :
  folded a = true →
  decode h (name k) = Some n →
  (walk st (stack_id k) = [] →
   render a h st (k, v) = Some [n +:+ " " +:+ fmt_d v]) ∧
  (∀ (f0 : Z) (fs : list Z),
     walk st (stack_id k) = f0 :: fs →
     render a h st (k, v) =
     Some [String.concat ";" (n :: (ksym h <$> reverse fs))
           +:+ " " +:+ fmt_d v]).
Proof.
  intros Hf Hn. split.
  - intros Hw. rewrite (render_folded a h st k v n), Hw by done. done.
  - intros f0 fs Hw. rewrite (render_folded a h st k v n), Hw by done. done.
Qed.

Lemma folded_line_skips_innermost_witness :
  render Example.folded_args Example.quiet_host
         (stack_traces Example.worker_tables) (Key "worker" 7, 1500)
  = Some ["worker;frameB 1500"].
Proof.
  destruct (folded_line_skips_innermost Example.folded_args
              Example.quiet_host (stack_traces Example.worker_tables)
              (Key "worker" 7) 1500 "worker") as [_ Hcons].
  - reflexivity.
  - reflexivity.
  - rewrite (Hcons Example.frameA [Example.frameB]) by reflexivity.
    vm_compute. reflexivity.
Defined.

(** C2, as the specification words it, does not hold: the entry with thread
    name "worker", stored stack [frameA; frameB] and duration 1500 is not
    rendered as [worker;frameA;frameB 1500]. *)
Lemma folded_line_not_all_frames :
  render_all Example.folded_args Example.quiet_host Example.worker_tables
  ≠ (["worker;frameA;frameB 1500"], true).
Proof. vm_compute. discriminate. Qed.

(** ** The output loop *)

Lemma drains_app (l1 l2 : list action) (t1 t2 t : tables) :
  drains (Finished (l1 ++ l2) t) =
  (drains (Finished l1 t1) + drains (Finished l2 t2))%nat.
Proof. unfold drains. simpl. by rewrite bind_app, length_app. Qed.

Lemma drains_printed (l : list string) (t : tables) :
  drains (Finished (Printed <$> l) t) = 0%nat.
Proof. unfold drains. simpl. by induction l. Qed.

(** A pass whose sleep has ended and whose rendering gets to its end
    prints, clears [counts] and exits. *)
Lemma loop_body_drains (a : args_t) (h : host) (w : wake) (t : tables)
    (lines : list string) :
  w ≠ SleepError →
  render_all a h t = (lines, true) →
  loop_body a h w t =
  (Finished
     ((match w with KeyboardInterrupt => [TrapSigint] | _ => [] end
       ++ (if folded a then [] else [Printed ""])
       ++ (Printed <$> lines))
      ++ [ClearCounts]
      ++ (if folded a then [] else [Printed "Detaching..."])
      ++ [Exit])
     (Tables (start t) ∅ (stack_traces t)),
   Exits).
Proof. intros Hw Hr. unfold loop_body. rewrite Hr. by destruct w. Qed.

(** A pass whose rendering raises prints what came before, and ends the
    script there with the tables as they are. *)
Lemma loop_body_raises (a : args_t) (h : host) (w : wake) (t : tables)
    (lines : list string) :
  w ≠ SleepError →
  render_all a h t = (lines, false) →
  loop_body a h w t =
  (Finished
     ((match w with KeyboardInterrupt => [TrapSigint] | _ => [] end
       ++ (if folded a then [] else [Printed ""])
       ++ (Printed <$> lines))
      ++ [Raise "UnicodeDecodeError"])
     t,
   Exits).
Proof. intros Hw Hr. unfold loop_body. rewrite Hr. by destruct w. Qed.

Lemma pass_drains_once (a : args_t) (w : wake) (lines : list string)
    (t : tables) :
  drains (Finished
            ((match w with KeyboardInterrupt => [TrapSigint] | _ => [] end
              ++ (if folded a then [] else [Printed ""])
              ++ (Printed <$> lines))
             ++ [ClearCounts]
             ++ (if folded a then [] else [Printed "Detaching..."])
             ++ [Exit])
            t) = 1%nat.
Proof.
  rewrite (drains_app _ _ t t), (drains_app _ _ t t), (drains_app _ _ t t).
  rewrite drains_printed. by destruct w, (folded a).
Qed.

Lemma pass_raised_drains_not (a : args_t) (w : wake) (lines : list string)
    (t : tables) :
  drains (Finished
            ((match w with KeyboardInterrupt => [TrapSigint] | _ => [] end
              ++ (if folded a then [] else [Printed ""])
              ++ (Printed <$> lines))
             ++ [Raise "UnicodeDecodeError"])
            t) = 0%nat.
Proof.
  rewrite (drains_app _ _ t t), (drains_app _ _ t t), (drains_app _ _ t t).
  rewrite drains_printed. by destruct w, (folded a).
Qed.

(** C6: a pass of the output loop that gets through its rendering clears
    [counts] and leaves the stack store alone. A second pass right after it,
    with no transition in between, finds no entry to render and prints none,
    and every stack id resolves to the frames it resolved to before the
    first pass. *)
Theorem drain_clears_counts_keeps_stacks (a : args_t) (h : host)
    (w : wake) (t : tables) :
  w ≠ SleepError →
  (render_all a h t).2 = true →
  let r := (loop_body a h w t).1 in
  drains r = 1%nat ∧
  counts (final r) = ∅ ∧
  stack_traces (final r) = stack_traces t ∧
  render_all a h (final r) = ([], true) ∧
  (∀ w' : wake, w' ≠ SleepError →
     actions (loop_body a h w' (final r)).1 =
     match w' with KeyboardInterrupt => [TrapSigint] | _ => [] end
     ++ (if folded a then [ClearCounts; Exit]
         else [Printed ""; ClearCounts; Printed "Detaching..."; Exit])) ∧
  ∀ sid : Z, walk (stack_traces (final r)) sid = walk (stack_traces t) sid.
Proof.
  intros Hw Hok r.
  destruct (render_all a h t) as [lines ok] eqn:Hr. simpl in Hok. subst ok.
  assert (Hfin : final r = Tables (start t) ∅ (stack_traces t)).
  { unfold r. by rewrite (loop_body_drains a h w t lines Hw Hr). }
  assert (Hdr : drains r = 1%nat).
  { unfold r. rewrite (loop_body_drains a h w t lines Hw Hr).
    apply pass_drains_once. }
  assert (Hempty : render_all a h (Tables (start t) ∅ (stack_traces t))
                   = ([], true)) by by apply render_all_empty.
  rewrite Hfin. simpl.
  split; [done|]. split; [done|]. split; [done|]. split; [done|].
  split; [|done].
  intros w' Hw'. rewrite (loop_body_drains a h w' _ [] Hw' Hempty).
  simpl. by destruct w', (folded a).
Qed.

Lemma drain_clears_counts_keeps_stacks_witness :
  counts (final (loop_body Example.plain_args Example.quiet_host Elapsed
                           Example.worker_tables).1) = ∅ ∧
  printed (actions
             (loop_body Example.plain_args Example.quiet_host Elapsed
                (final (loop_body Example.plain_args Example.quiet_host
                                  Elapsed Example.worker_tables).1)).1)
    = [""; "Detaching..."] ∧
  walk (stack_traces
          (final (loop_body Example.plain_args Example.quiet_host Elapsed
                            Example.worker_tables).1)) 7
    = [Example.frameA; Example.frameB].
Proof.
  set (r := (loop_body Example.plain_args Example.quiet_host Elapsed
                       Example.worker_tables).1).
  destruct (drain_clears_counts_keeps_stacks Example.plain_args
              Example.quiet_host Elapsed Example.worker_tables)
    as (_ & Hc & _ & _ & Hsecond & Hwalk).
  - discriminate.
  - reflexivity.
  - fold r in Hc, Hsecond, Hwalk. split; [exact Hc|]. split.
    + rewrite (Hsecond Elapsed) by discriminate. reflexivity.
    + rewrite Hwalk. reflexivity.
Defined.

(** The output loop takes one pass, whatever fuel it is given. *)
Lemma output_loop_one_pass (fuel n : nat) (a : args_t) (h : host)
    (f : filter_t) (t : tables) :
  fuel ≠ 0%nat →
  output_loop fuel n a h f t =
  Some (loop_body a h (wait h n).1 (run f (wait h n).2 t)).1.
Proof.
  intros Hfuel. destruct fuel as [|fuel']; [done|]. simpl.
  destruct (wait h n) as [w es]. simpl.
  assert (Hex : (loop_body a h w (run f es t)).2 = Exits).
  { unfold loop_body. destruct w; [| |done];
      by destruct (render_all a h (run f es t)) as [lines []]. }
  destruct (loop_body a h w (run f es t)) as [r c]. simpl in Hex.
  by subst c.
Qed.

(** No pass clears [counts] twice. *)
Lemma loop_body_at_most_once (a : args_t) (h : host) (w : wake)
    (t : tables) :
  (drains (loop_body a h w t).1 ≤ 1)%nat.
Proof.
  destruct (decide (w = SleepError)) as [->|Hw].
  { unfold loop_body, drains. simpl. lia. }
  destruct (render_all a h t) as [lines []] eqn:Hr.
  - rewrite (loop_body_drains a h w t lines Hw Hr).
    change (drains (?r, Exits).1) with (drains r).
    rewrite pass_drains_once. lia.
  - rewrite (loop_body_raises a h w t lines Hw Hr).
    change (drains (?r, Exits).1) with (drains r).
    rewrite pass_raised_drains_not. lia.
Qed.

(** C10: the script clears the tables at most once in its life, and the
    output loop takes one pass, whatever fuel it is given. Once the sleep has
    ended, by the time running out or by Ctrl-C, and with a rendering that
    gets to its end, the pass prints the entries of the tables as the probe
    left them, clears [counts], and exits: what the loop does is that one
    pass and nothing after it, and it leaves [counts] empty and the other
    tables as the probe left them. There is no second accumulation
    window. *)
Theorem collector_drains_once (fuel : nat) (a : args_t) (h : host) :
  fuel ≠ 0%nat →
  (∀ (n : nat) (f : filter_t) (t : tables) (w : wake)
     (es : list task_switch) (lines : list string),
     wait h n = (w, es) →
     w ≠ SleepError →
     render_all a h (run f es t) = (lines, true) →
     ∃ r : finished,
       output_loop fuel n a h f t = Some r ∧
       actions r =
         (match w with KeyboardInterrupt => [TrapSigint] | _ => [] end
          ++ (if folded a then [] else [Printed ""])
          ++ (Printed <$> lines))
         ++ [ClearCounts]
         ++ (if folded a then [] else [Printed "Detaching..."])
         ++ [Exit] ∧
       final r = Tables (start (run f es t)) ∅ (stack_traces (run f es t)) ∧
       drains r = 1%nat) ∧
  (∀ (n : nat) (f : filter_t) (t : tables),
     ∃ r : finished,
       output_loop fuel n a h f t = Some r ∧
       output_loop 1 n a h f t = Some r ∧
       (drains r ≤ 1)%nat) ∧
  ∃ r : finished,
    main fuel a h = Some r ∧
    (drains r ≤ 1)%nat ∧
    ∀ (d : Z) (f : filter_t) (w : wake) (es : list task_switch)
      (lines : list string),
      duration a = Some d →
      truthy (pid a) && useronly a = false →
      filter_of h a = Some f →
      num_open_kprobes h ≠ 0 →
      wait h 0 = (w, es) →
      w ≠ SleepError →
      render_all a h (run f es no_tables) = (lines, true) →
      drains r = 1%nat ∧
      final r = Tables (start (run f es no_tables)) ∅
                       (stack_traces (run f es no_tables)) ∧
      last (actions r) = Some Exit.
Proof.
  intros Hfuel. split; [|split].
  - intros n f t w es lines Hwait Hw Hr.
    rewrite output_loop_one_pass, Hwait by done. simpl.
    rewrite (loop_body_drains a h w _ lines Hw Hr). simpl.
    eexists. split; [reflexivity|]. simpl.
    split; [done|]. split; [done|]. apply pass_drains_once.
  - intros n f t. rewrite !output_loop_one_pass by done.
    eexists. split; [reflexivity|]. split; [reflexivity|].
    apply loop_body_at_most_once.
  - unfold main.
    destruct (duration a) as [d|]; cycle 1.
    { eexists. split; [reflexivity|]. split; [by compute; lia|]. done. }
    destruct (truthy (pid a) && useronly a).
    { eexists. split; [reflexivity|]. split; [by compute; lia|]. done. }
    destruct (filter_of h a) as [f|]; cycle 1.
    { eexists. split; [reflexivity|]. split; [by compute; lia|]. done. }
    destruct (decide (num_open_kprobes h = 0)) as [Hz|Hnz].
    { rewrite Hz. simpl.
      eexists. split; [reflexivity|]. split; [by compute; lia|].
      by intros. }
    apply Z.eqb_neq in Hnz as Hnz'. rewrite Hnz'.
    rewrite output_loop_one_pass by done.
    set (r := (loop_body a h (wait h 0).1 (run f (wait h 0).2 no_tables)).1).
    simpl. eexists. split; [reflexivity|].
    assert (Hpre : ∀ t1 t2,
              drains (Finished (BpfLoad f
                                  :: AttachKprobe "finish_task_switch" "oncpu"
                                  :: header a d ++ actions r) t1)
              = drains (Finished (actions r) t2)).
    { intros t1 t2. unfold drains, header. simpl. by destruct (folded a). }
    split.
    { rewrite (Hpre _ (final r)). destruct r as [l t'] eqn:Er.
      rewrite <- Er. apply loop_body_at_most_once. }
    intros d' f' w es lines [= <-] _ [= <-] _ Hwait Hw Hr.
    assert (Hbody : r = Finished
              ((match w with KeyboardInterrupt => [TrapSigint] | _ => [] end
                ++ (if folded a then [] else [Printed ""])
                ++ (Printed <$> lines))
               ++ [ClearCounts]
               ++ (if folded a then [] else [Printed "Detaching..."])
               ++ [Exit])
              (Tables (start (run f es no_tables)) ∅
                      (stack_traces (run f es no_tables)))).
    { unfold r. rewrite Hwait. simpl.
      by rewrite (loop_body_drains a h w _ lines Hw Hr). }
    split; [|split].
    + rewrite (Hpre _ (final r)), Hbody. cbn [actions final].
      apply pass_drains_once.
    + by rewrite Hbody.
    + rewrite Hbody. cbn [actions]. rewrite 2!last_cons, !last_app. done.
Qed.

Lemma collector_drains_once_witness :
  ∃ r : finished,
    main 3 Example.plain_args Example.busy_host = Some r ∧
    drains r = 1%nat ∧
    final r = Tables {[ 20 := 5000 ]} ∅
                     {[ 7 := [Example.frameA; Example.frameB] ]} ∧
    last (actions r) = Some Exit.
Proof.
  destruct (collector_drains_once 3 Example.plain_args Example.busy_host)
    as (_ & _ & r & Hr & _ & Hvalid).
  - discriminate.
  - exists r. split; [exact Hr|].
    destruct (Hvalid 5 FilterAll KeyboardInterrupt
                [TaskSwitch 10 0 0 20 1000 1000 "idle" 3 [Example.frameB];
                 TaskSwitch 20 0 0 10 5000 5000 "worker" 7
                            [Example.frameA; Example.frameB]]
                (render_all Example.plain_args Example.busy_host
                   (run FilterAll
                      [TaskSwitch 10 0 0 20 1000 1000 "idle" 3
                                  [Example.frameB];
                       TaskSwitch 20 0 0 10 5000 5000 "worker" 7
                                  [Example.frameA; Example.frameB]]
                      no_tables)).1)
      as (Hd & Hfin & Hlast).
    + reflexivity.
    + reflexivity.
    + reflexivity.
    + discriminate.
    + reflexivity.
    + discriminate.
    + vm_compute. reflexivity.
    + split; [exact Hd|]. split; [|exact Hlast].
      rewrite Hfin. vm_compute. reflexivity.
Defined.

(** ** The arguments *)

Section SameFormat.
Variables (a1 a2 : args_t) (h : host).
Hypothesis same_format : folded a1 = folded a2.

(** Of the arguments, the output loop reads [folded] only. *)
Lemma render_same st kv : render a1 h st kv = render a2 h st kv.
Proof. unfold render. by rewrite same_format. Qed.

Lemma render_all_same t : render_all a1 h t = render_all a2 h t.
Proof.
  unfold render_all.
  induction (sorted (map_to_list (counts t)) snd) as [|kv l IH]; [done|].
  simpl. by rewrite render_same, IH.
Qed.

Lemma loop_body_same w t : loop_body a1 h w t = loop_body a2 h w t.
Proof. unfold loop_body. by rewrite render_all_same, same_format. Qed.

Lemma output_loop_same fuel n f t :
  output_loop fuel n a1 h f t = output_loop fuel n a2 h f t.
Proof.
  revert n t. induction fuel as [|fuel IH]; intros n t; [done|].
  simpl. destruct (wait h n) as [w es]. rewrite loop_body_same.
  destruct (loop_body a2 h w (run f es t)) as [r []]; [|done].
  by rewrite IH.
Qed.

End SameFormat.

(** The script does the same whatever [args.verbose] is. *)
Lemma main_verbose (fuel : nat) (a : args_t) (h : host) (v : bool) :
  main fuel (Args (useronly a) (pid a) v (folded a) (duration a)) h
  = main fuel a h.
Proof.
  destruct a as [u p v0 fo d]. unfold main, filter_of, header. simpl.
  destruct d as [d|]; [|done].
  destruct (truthy p && u); [done|].
  destruct (if truthy p then _ else _) as [f|]; [|done].
  destruct (num_open_kprobes h =? 0); [done|].
  by rewrite (output_loop_same (Args u p v fo (Some d))
                               (Args u p v0 fo (Some d))).
Qed.

(** C7: [args.verbose] is parsed and never read: a session with [-v] does,
    prints and leaves in the tables what the same session without it does,
    so no state of the tables is rendered differently with it. *)
Theorem verbose_is_never_read (fuel : nat) (a : args_t) (h : host)
    (v : bool) :
  main fuel (Args (useronly a) (pid a) v (folded a) (duration a)) h
  = main fuel a h ∧
  ∀ t : tables,
    render_all (Args (useronly a) (pid a) v (folded a) (duration a)) h t
    = render_all a h t.
Proof. split; [apply main_verbose | intros t; by apply render_all_same]. Qed.

(** C8: with both [-p] and [-u] the script attaches nothing and goes through
    no table: when the duration is a number it prints the one line
    [ERROR: use either -p or -u.] and exits, and nothing else; when it is
    not, [int()] has already raised. *)
Theorem pid_and_useronly_rejected (fuel : nat) (a : args_t) (h : host) :
  truthy (pid a) = true →
  useronly a = true →
  ∃ r : finished,
    main fuel a h = Some r ∧
    attach_attempts (actions r) = 0%nat ∧
    drains r = 0%nat ∧
    (is_Some (duration a) →
     actions r = [Printed "ERROR: use either -p or -u."; Exit]).
Proof.
  intros Hp Hu. unfold main. rewrite Hp, Hu.
  destruct (duration a) as [d|]; simpl.
  - eexists. split; [reflexivity|]. by repeat split.
  - eexists. split; [reflexivity|]. repeat split; try done.
Qed.

Lemma pid_and_useronly_rejected_witness :
  ∃ r : finished,
    main 3 Example.both_args Example.quiet_host = Some r ∧
    attach_attempts (actions r) = 0%nat ∧
    drains r = 0%nat ∧
    (is_Some (duration Example.both_args) →
     actions r = [Printed "ERROR: use either -p or -u."; Exit]).
Proof.
  apply (pid_and_useronly_rejected 3 Example.both_args Example.quiet_host).
  - reflexivity.
  - reflexivity.
Defined.

(** ** More on one transition *)

Section Transition.
Variable f : filter_t.
Implicit Types (e : task_switch) (t : tables) (k : key_t).

(** What [oncpu] leaves in the stack store. *)
Lemma oncpu_stacks e t :
  stack_traces (oncpu f e t) =
  match sample f e t with
  | None => stack_traces t
  | Some _ => (get_stackid e (stack_traces t)).2
  end.
Proof.
  unfold oncpu, sample, delta_us.
  destruct (record_prev f e (start t) !! current_pid e); [|done].
  simpl. destruct (_ <? _); [done|].
  unfold get_stackid, lookup_or_init.
  by destruct (0 <=? _), (counts t !! _).
Qed.

(** A thread without an entry once the outgoing thread is recorded has none
    when [oncpu] returns. *)
Lemma oncpu_start_none e t (tid : Z) :
  record_prev f e (start t) !! tid = None →
  start (oncpu f e t) !! tid = None.
Proof.
  intros Hnone. rewrite oncpu_start.
  destruct (record_prev f e (start t) !! current_pid e); [|done].
  destruct (decide (current_pid e = tid)) as [->|Hne].
  - apply lookup_delete_eq.
  - by rewrite lookup_delete_ne.
Qed.

(** The sample of a transition whose incoming thread has an entry and whose
    delta reaches the threshold. *)
Lemma sample_some e t (tsp : Z) :
  record_prev f e (start t) !! current_pid e = Some tsp →
  MINBLOCK_US ≤ delta_us (ktime_in e) tsp →
  sample f e t = Some (key_of e, delta_us (ktime_in e) tsp).
Proof.
  intros Hpend Hmin. unfold sample. rewrite Hpend. simpl.
  by apply Z.ltb_ge in Hmin as ->.
Qed.

End Transition.

(** The test of [PF_KTHREAD] reads bit 21 of the flags. *)
Lemma kthread_bit (flags : Z) :
  (Z.land flags PF_KTHREAD =? 0) = negb (Z.testbit flags 21).
Proof.
  assert (Hland : Z.land flags PF_KTHREAD
                  = if Z.testbit flags 21 then 2 ^ 21 else 0).
  { apply Z.bits_inj'. intros n Hn.
    rewrite Z.land_spec. change PF_KTHREAD with (2 ^ 21).
    rewrite Z.pow2_bits_eqb by lia.
    destruct (Z.eqb_spec 21 n) as [<-|Hne].
    - rewrite andb_true_r. destruct (Z.testbit flags 21) eqn:Hb.
      + by rewrite Z.pow2_bits_true by lia.
      + by rewrite Z.bits_0.
    - rewrite andb_false_r. destruct (Z.testbit flags 21).
      + by rewrite Z.pow2_bits_false by lia.
      + by rewrite Z.bits_0. }
  rewrite Hland. by destruct (Z.testbit flags 21).
Qed.

(** X1: when [oncpu] returns, the thread that has just come on the processor
    has no PendingStart entry, whatever the tables held and whatever the
    transition was: an entry is taken at most once. *)
Theorem incoming_entry_gone (f : filter_t) (e : task_switch) (t : tables) :
  start (oncpu f e t) !! current_pid e = None.
Proof.
  rewrite oncpu_start.
  destruct (record_prev f e (start t) !! current_pid e) eqn:Hpend; [|done].
  apply lookup_delete_eq.
Qed.

(** X2: a transition touches the PendingStart entries of the outgoing and
    of the incoming thread only: the entry of any other thread is what it
    was. *)
Theorem other_entries_untouched (f : filter_t) (e : task_switch)
    (t : tables) (tid : Z) :
  tid ≠ wrap32 (prev_pid e) →
  tid ≠ current_pid e →
  start (oncpu f e t) !! tid = start t !! tid.
Proof.
  intros Hprev Hcur. rewrite oncpu_start.
  assert (Hrec : record_prev f e (start t) !! tid = start t !! tid).
  { apply record_prev_other. right. congruence. }
  destruct (record_prev f e (start t) !! current_pid e); [|done].
  by rewrite lookup_delete_ne.
Qed.

Lemma other_entries_untouched_witness :
  start (oncpu FilterAll Example.sw_10_20 Example.pending_20) !! 30
  = start Example.pending_20 !! 30.
Proof.
  apply (other_entries_untouched FilterAll Example.sw_10_20
           Example.pending_20 30).
  - vm_compute. discriminate.
  - vm_compute. discriminate.
Defined.

(** X3: the switch-out is an unconditional upsert. When the filter passes,
    the outgoing thread (another one than the incoming) ends up with the
    timestamp of this transition, whatever entry it had before; when the
    filter does not pass, its entry is left as it was. *)
Theorem switch_out_upserts (f : filter_t) (e : task_switch) (t : tables) :
  wrap32 (prev_pid e) ≠ current_pid e →
  start (oncpu f e t) !! wrap32 (prev_pid e) =
  if FILTER f e then Some (wrap64 (ktime_out e))
  else start t !! wrap32 (prev_pid e).
Proof.
  intros Hne. rewrite oncpu_start.
  assert (Hrec : record_prev f e (start t) !! wrap32 (prev_pid e)
                 = if FILTER f e then Some (wrap64 (ktime_out e))
                   else start t !! wrap32 (prev_pid e)).
  { unfold record_prev. destruct (FILTER f e); [|done].
    apply lookup_insert_eq. }
  destruct (record_prev f e (start t) !! current_pid e); [|done].
  by rewrite lookup_delete_ne.
Qed.

Lemma switch_out_upserts_witness :
  start (oncpu FilterAll Example.sw_20_10 Example.pending_20)
    !! wrap32 (prev_pid Example.sw_20_10)
  = Some 5000.
Proof.
  rewrite (switch_out_upserts FilterAll Example.sw_20_10 Example.pending_20).
  - reflexivity.
  - vm_compute. discriminate.
Defined.

(** X4: with [-u], whether the outgoing thread is recorded hangs on bit 21
    of its flags ([PF_KTHREAD]) and on nothing else: a kernel thread keeps
    the entry it had (none, if it had none), any other thread gets the
    timestamp of the transition. *)
Theorem useronly_skips_kernel_threads (e : task_switch) (t : tables) :
  wrap32 (prev_pid e) ≠ current_pid e →
  start (oncpu FilterUser e t) !! wrap32 (prev_pid e) =
  if Z.testbit (prev_flags e) 21 then start t !! wrap32 (prev_pid e)
  else Some (wrap64 (ktime_out e)).
Proof.
  intros Hne. rewrite oncpu_start.
  assert (Hrec : record_prev FilterUser e (start t) !! wrap32 (prev_pid e)
                 = if Z.testbit (prev_flags e) 21
                   then start t !! wrap32 (prev_pid e)
                   else Some (wrap64 (ktime_out e))).
  { unfold record_prev, FILTER. rewrite kthread_bit.
    destruct (Z.testbit (prev_flags e) 21); simpl; [done|].
    apply lookup_insert_eq. }
  destruct (record_prev FilterUser e (start t) !! current_pid e); [|done].
  by rewrite lookup_delete_ne.
Qed.

Lemma useronly_skips_kernel_threads_witness :
  start (oncpu FilterUser
               (TaskSwitch 2 0x00200040 0 20 1000 1000 "worker" 7 [])
               no_tables)
    !! wrap32 (prev_pid (TaskSwitch 2 0x00200040 0 20 1000 1000 "worker" 7 []))
  = None.
Proof.
  rewrite (useronly_skips_kernel_threads
             (TaskSwitch 2 0x00200040 0 20 1000 1000 "worker" 7 [])
             no_tables).
  - reflexivity.
  - vm_compute. discriminate.
Defined.

(** What a switch-in with an entry and a passing delta does to [counts]. *)
Lemma switch_in_adds_delta_aux (f : filter_t) (e : task_switch) (t : tables)
    (tsp : Z) :
  record_prev f e (start t) !! current_pid e = Some tsp →
  MINBLOCK_US ≤ delta_us (ktime_in e) tsp →
  counts (oncpu f e t) !! Key (current_comm e) (stackid_ret e) =
    Some (wrap64 (default 0 (counts t !! Key (current_comm e) (stackid_ret e))
                  + delta_us (ktime_in e) tsp)) ∧
  ∀ k : key_t,
    k ≠ Key (current_comm e) (stackid_ret e) →
    counts (oncpu f e t) !! k = counts t !! k.
Proof.
  intros Hpend Hmin. rewrite oncpu_counts, (sample_some f e t tsp) by done.
  unfold key_of. split.
  - apply lookup_insert_eq.
  - intros k Hk. by rewrite lookup_insert_ne.
Qed.

(** X5: a switch-in that finds an entry and a delta at or above the
    threshold adds that delta, and nothing else, to the key made of the
    name of the incoming thread and of what [get_stackid] returned; every
    other key of [counts] is left as it was. *)
Theorem switch_in_adds_delta (f : filter_t) (e : task_switch) (t : tables)
    (tsp : Z) :
  record_prev f e (start t) !! current_pid e = Some tsp →
  MINBLOCK_US ≤ delta_us (ktime_in e) tsp →
  counts (oncpu f e t) !! Key (current_comm e) (stackid_ret e) =
    Some (wrap64 (default 0 (counts t !! Key (current_comm e) (stackid_ret e))
                  + delta_us (ktime_in e) tsp)) ∧
  ∀ k : key_t,
    k ≠ Key (current_comm e) (stackid_ret e) →
    counts (oncpu f e t) !! k = counts t !! k.
Proof.
  intros Hpend Hmin.
  assert (Hs : sample f e t = Some (key_of e, delta_us (ktime_in e) tsp))
    by by apply sample_some.
  rewrite oncpu_counts, Hs. unfold key_of. split.
  - apply lookup_insert_eq.
  - intros k Hk. by rewrite lookup_insert_ne.
Qed.

Lemma switch_in_adds_delta_witness :
  counts (oncpu FilterAll Example.sw_20_10
                (oncpu FilterAll Example.sw_10_20 Example.worker_tables))
    !! Key (current_comm Example.sw_20_10) (stackid_ret Example.sw_20_10)
  = Some 1504.
Proof.
  destruct (switch_in_adds_delta FilterAll Example.sw_20_10
              (oncpu FilterAll Example.sw_10_20 Example.worker_tables) 1000)
    as [Hadd _].
  - reflexivity.
  - vm_compute. discriminate.
  - rewrite Hadd. reflexivity.
Defined.

(** X6: the delta is an unsigned difference. When the clock read at the
    switch-in is behind the recorded timestamp (by no more than
    [2^64 - 1000] ns), the delta is not negative and the sample is not
    dropped: it wraps to [(2^64 - gap) / 1000] microseconds, which passes
    the threshold, and that is what [counts] gets. *)
Theorem clock_behind_wraps (f : filter_t) (e : task_switch) (t : tables)
    (tsp : Z) :
  record_prev f e (start t) !! current_pid e = Some tsp →
  0 ≤ ktime_in e → ktime_in e < tsp → tsp < 2 ^ 64 →
  tsp - ktime_in e ≤ 2 ^ 64 - 1000 →
  MINBLOCK_US ≤ (2 ^ 64 - (tsp - ktime_in e)) / 1000 ∧
  counts (oncpu f e t) !! Key (current_comm e) (stackid_ret e) =
    Some (wrap64 (default 0 (counts t !! Key (current_comm e) (stackid_ret e))
                  + (2 ^ 64 - (tsp - ktime_in e)) / 1000)).
Proof.
  intros Hpend Hnow Hback Htsp Hgap.
  assert (Hd : delta_us (ktime_in e) tsp
               = (2 ^ 64 - (tsp - ktime_in e)) / 1000).
  { unfold delta_us, wrap64. f_equal.
    rewrite <- (Z_mod_plus_full (ktime_in e - tsp) 1 (2 ^ 64)).
    rewrite Z.mod_small by lia. lia. }
  assert (Hmin : MINBLOCK_US ≤ (2 ^ 64 - (tsp - ktime_in e)) / 1000).
  { unfold MINBLOCK_US. apply Z.div_le_lower_bound; lia. }
  split; [done|].
  rewrite <- Hd in Hmin |- *.
  by destruct (switch_in_adds_delta_aux f e t tsp Hpend Hmin).
Qed.

Lemma clock_behind_wraps_witness :
  counts (oncpu FilterAll
                (TaskSwitch 10 0 0 20 900 900 "worker" 7 [])
                Example.pending_20)
    !! Key "worker" 7
  = Some 18446744073709551.
Proof.
  destruct (clock_behind_wraps FilterAll
              (TaskSwitch 10 0 0 20 900 900 "worker" 7 [])
              Example.pending_20 1000) as [_ Hadd].
  - reflexivity.
  - simpl. lia.
  - simpl. lia.
  - lia.
  - simpl. lia.
  - simpl in Hadd. rewrite Hadd. reflexivity.
Defined.

(** X7: a stack capture that fails does not cost the sample. When
    [get_stackid] returns a negative errno, the switch-in that finds an
    entry and a passing delta still adds the delta, under the key made of
    the name of the incoming thread and of that errno as the stack id, and
    the stack store is left as it was. *)
Theorem capture_failure_keeps_sample (f : filter_t) (e : task_switch)
    (t : tables) (tsp : Z) :
  record_prev f e (start t) !! current_pid e = Some tsp →
  MINBLOCK_US ≤ delta_us (ktime_in e) tsp →
  stackid_ret e < 0 →
  stack_traces (oncpu f e t) = stack_traces t ∧
  counts (oncpu f e t) !! Key (current_comm e) (stackid_ret e) =
    Some (wrap64 (default 0 (counts t !! Key (current_comm e) (stackid_ret e))
                  + delta_us (ktime_in e) tsp)).
Proof.
  intros Hpend Hmin Hneg. split.
  - rewrite oncpu_stacks, (sample_some f e t tsp) by done.
    unfold get_stackid. by apply Z.leb_gt in Hneg as ->.
  - by destruct (switch_in_adds_delta_aux f e t tsp Hpend Hmin).
Qed.

Lemma capture_failure_keeps_sample_witness :
  stack_traces (oncpu FilterAll
                      (TaskSwitch 10 0 0 20 5000 5000 "worker" (-14) [])
                      Example.pending_20)
    = stack_traces Example.pending_20 ∧
  counts (oncpu FilterAll
                (TaskSwitch 10 0 0 20 5000 5000 "worker" (-14) [])
                Example.pending_20)
    !! Key "worker" (-14) = Some 4.
Proof.
  destruct (capture_failure_keeps_sample FilterAll
              (TaskSwitch 10 0 0 20 5000 5000 "worker" (-14) [])
              Example.pending_20 1000) as [Hst Hadd].
  - reflexivity.
  - vm_compute. discriminate.
  - simpl. lia.
  - split; [exact Hst|]. simpl in Hadd. rewrite Hadd. reflexivity.
Defined.

(** ** More on sequences of transitions *)

(** X8: a thread that no transition of a sequence records (each one that
    switches it out fails the filter) and that has no PendingStart entry to
    begin with has none at the end. *)
Theorem unrecorded_thread_never_pending (f : filter_t)
    (es : list task_switch) (t : tables) (tid : Z) :
  start t !! tid = None →
  Forall (λ e, FILTER f e = false ∨ wrap32 (prev_pid e) ≠ tid) es →
  start (run f es t) !! tid = None.
Proof.
  revert t. induction es as [|e es IH]; intros t Hnone Hes; [done|].
  apply Forall_cons in Hes as [He Hes].
  rewrite run_cons. apply IH; [|done].
  apply oncpu_start_none. by rewrite record_prev_other.
Qed.

Lemma unrecorded_thread_never_pending_witness :
  start (run FilterUser
             [TaskSwitch 2 0x00200040 0 20 1000 1000 "worker" 7 [];
              TaskSwitch 20 0 0 2 5000 5000 "kworker/0:1" 3 []]
             no_tables) !! 2 = None.
Proof.
  apply (unrecorded_thread_never_pending FilterUser
           [TaskSwitch 2 0x00200040 0 20 1000 1000 "worker" 7 [];
            TaskSwitch 20 0 0 2 5000 5000 "kworker/0:1" 3 []]
           no_tables 2).
  - reflexivity.
  - apply Forall_cons. split; [left; reflexivity|].
    apply Forall_cons. split; [right; vm_compute; discriminate|].
    apply Forall_nil_2.
Defined.

(** One transition takes no key away from [counts] or from the stack
    store, and adds at most one key to [counts]. *)
Section Invariants.
Variable f : filter_t.
Implicit Types (e : task_switch) (t : tables) (k : key_t).

Lemma oncpu_counts_persist e t k :
  is_Some (counts t !! k) → is_Some (counts (oncpu f e t) !! k).
Proof.
  intros Hk. rewrite oncpu_counts.
  destruct (sample f e t) as [[k' d]|]; [|done].
  destruct (decide (k' = k)) as [->|Hne].
  - rewrite lookup_insert_eq. eauto.
  - by rewrite lookup_insert_ne.
Qed.

Lemma oncpu_stacks_persist e t (sid : Z) :
  is_Some (stack_traces t !! sid) →
  is_Some (stack_traces (oncpu f e t) !! sid).
Proof.
  intros Hs. rewrite oncpu_stacks.
  destruct (sample f e t); [|done].
  unfold get_stackid. destruct (0 <=? stackid_ret e); [|done]. simpl.
  destruct (decide (stackid_ret e = sid)) as [->|Hne].
  - rewrite lookup_insert_eq. eauto.
  - by rewrite lookup_insert_ne.
Qed.

Lemma oncpu_counts_size e t :
  (size (counts (oncpu f e t)) ≤ S (size (counts t)))%nat.
Proof.
  rewrite oncpu_counts. destruct (sample f e t) as [[k d]|]; [|lia].
  rewrite map_size_insert. destruct (counts t !! k); unfold id; lia.
Qed.

End Invariants.

(** X9: the probe takes nothing away from the Aggregation Table or from the
    stack store: a key that [counts] holds, and a stack id that the store
    resolves, are still there after any sequence of transitions. *)
Theorem probe_keeps_entries (f : filter_t) (es : list task_switch)
    (t : tables) :
  (∀ k : key_t,
     is_Some (counts t !! k) → is_Some (counts (run f es t) !! k)) ∧
  (∀ sid : Z,
     is_Some (stack_traces t !! sid) →
     is_Some (stack_traces (run f es t) !! sid)).
Proof.
  revert t. induction es as [|e es IH]; intros t; [done|].
  rewrite run_cons. destruct (IH (oncpu f e t)) as [IHc IHs]. split.
  - intros k Hk. by apply IHc, oncpu_counts_persist.
  - intros sid Hs. by apply IHs, oncpu_stacks_persist.
Qed.

(** X10: every transition adds at most one entry to the Aggregation Table:
    after a sequence of transitions the table has grown by no more entries
    than there were transitions. *)
Theorem counts_grow_one_per_transition (f : filter_t)
    (es : list task_switch) (t : tables) :
  (size (counts (run f es t)) ≤ size (counts t) + length es)%nat.
Proof.
  revert t. induction es as [|e es IH]; intros t; [simpl; lia|].
  rewrite run_cons. specialize (IH (oncpu f e t)).
  pose proof (oncpu_counts_size f e t). simpl. lia.
Qed.

(** X12: aggregation is by name and stack, not by thread: off-on pairs of
    any threads, one after the other, that come back under the same key add
    up in the one entry of that key (modulo the 64 bits of the value). *)
Theorem same_key_threads_merge (f : filter_t) (k : key_t)
    (ps : list off_on) (t : tables) :
  ps ≠ [] →
  Forall (λ p, (∃ tid : Z, off_on_pair f tid k p) ∧
               0 ≤ ktime_out p.1 ∧ ktime_out p.1 ≤ ktime_in p.2 ∧
               ktime_in p.2 < 2 ^ 64) ps →
  counts (run f (transitions ps) t) !! k =
  Some (wrap64 (default 0 (counts t !! k) + Zsum (pair_delta <$> ps))).
Proof.
  intros Hne Hps.
  assert (Hgen : counts (run f (transitions ps) t) !! k =
                 match ps with
                 | [] => counts t !! k
                 | _ => Some (wrap64 (default 0 (counts t !! k)
                                      + Zsum (pair_delta <$> ps)))
                 end).
  { clear Hne. revert t. induction ps as [|p ps IH]; intros t; [done|].
    apply Forall_cons in Hps as [([tid Hp] & Ho & Hoi & Hi) Hps].
    rewrite transitions_cons, !run_cons, (IH Hps).
    rewrite (pair_counts f tid k p t Hp) by lia.
    destruct ps as [|p' ps'].
    - simpl. by rewrite Z.add_0_r.
    - simpl default. rewrite wrap64_add_l. f_equal. f_equal.
      rewrite (fmap_cons _ p). unfold Zsum. simpl. lia. }
  rewrite Hgen. by destruct ps.
Qed.

Lemma same_key_threads_merge_witness :
  counts (run FilterAll
            (transitions
               [(TaskSwitch 20 0 0 10 1000 1000 "idle" 3 [],
                 TaskSwitch 10 0 0 20 5000 5500 "worker" 7 []);
                (TaskSwitch 30 0 0 10 9000 9000 "idle" 3 [],
                 TaskSwitch 10 0 0 30 11000 12000 "worker" 7 [])])
            no_tables) !! Key "worker" 7
  = Some 7.
Proof.
  rewrite (same_key_threads_merge FilterAll (Key "worker" 7)).
  - reflexivity.
  - discriminate.
  - apply Forall_cons. split.
    { split; [exists 20; vm_compute; repeat split; congruence|].
      simpl. lia. }
    apply Forall_cons. split.
    { split; [exists 30; vm_compute; repeat split; congruence|].
      simpl. lia. }
    apply Forall_nil_2.
Defined.

(** ** The order of the output *)

Section Sorted.
Context {A : Type} (key : A → Z).

Lemma insert_by_perm (x : A) (l : list A) : insert_by key x l ≡ₚ x :: l.
Proof.
  induction l as [|y l IH]; simpl; [done|].
  destruct (key y <=? key x); [|done].
  rewrite IH. apply Permutation_swap.
Qed.

Lemma insert_by_sorted (x : A) (l : list A) :
  StronglySorted (λ a b, key a ≤ key b) l →
  StronglySorted (λ a b, key a ≤ key b) (insert_by key x l).
Proof.
  induction 1 as [|y l Hl IH Hy]; simpl; [repeat constructor|].
  destruct (Z.leb_spec (key y) (key x)) as [Hle|Hlt].
  - constructor; [done|]. rewrite insert_by_perm. by constructor.
  - constructor; [by constructor|]. constructor; [lia|].
    eapply Forall_impl; [exact Hy|]. simpl. intros z Hz. lia.
Qed.

Lemma filter_key_none (c : Z) (l : list A) :
  Forall (λ a, key a ≠ c) l → filter (λ a, key a = c) l = [].
Proof.
  induction 1 as [|y l Hy Hl IH]; [done|].
  by rewrite filter_cons_False.
Qed.

(** Among the elements of one key, the new one goes last. *)
Lemma insert_by_stable (x : A) (l : list A) (c : Z) :
  StronglySorted (λ a b, key a ≤ key b) l →
  filter (λ a, key a = c) (insert_by key x l) =
  filter (λ a, key a = c) l ++ filter (λ a, key a = c) [x].
Proof.
  induction 1 as [|y l Hl IH Hy]; simpl; [done|].
  destruct (Z.leb_spec (key y) (key x)) as [Hle|Hlt].
  - rewrite !filter_cons, IH. by destruct (decide (key y = c)).
  - rewrite (filter_cons _ x (y :: l)), (filter_cons _ x []), filter_nil.
    destruct (decide (key x = c)) as [Hx|Hx]; [|by rewrite app_nil_r].
    assert (Hnone : filter (λ a, key a = c) (y :: l) = []).
    { apply filter_key_none. constructor; [lia|].
      eapply Forall_impl; [exact Hy|]. simpl. intros z Hz. lia. }
    by rewrite Hnone.
Qed.

Lemma sorted_from (acc l : list A) :
  StronglySorted (λ a b, key a ≤ key b) acc →
  foldl (λ acc x, insert_by key x acc) acc l ≡ₚ acc ++ l ∧
  StronglySorted (λ a b, key a ≤ key b)
                 (foldl (λ acc x, insert_by key x acc) acc l) ∧
  ∀ c : Z,
    filter (λ a, key a = c) (foldl (λ acc x, insert_by key x acc) acc l) =
    filter (λ a, key a = c) acc ++ filter (λ a, key a = c) l.
Proof.
  revert acc. induction l as [|x l IH]; intros acc Hacc; simpl.
  - split; [by rewrite app_nil_r|]. split; [done|].
    intros c. by rewrite app_nil_r.
  - destruct (IH (insert_by key x acc) (insert_by_sorted x acc Hacc))
      as (Hp & Hs & Hf).
    split; [|split; [done|]].
    + rewrite Hp, insert_by_perm. simpl. apply Permutation_middle.
    + intros c. rewrite Hf, insert_by_stable by done.
      rewrite <- app_assoc. f_equal.
      rewrite (filter_cons _ x l), (filter_cons _ x []), filter_nil.
      by destruct (decide (key x = c)).
Qed.

Lemma sorted_perm (l : list A) : sorted l key ≡ₚ l.
Proof.
  unfold sorted. by destruct (sorted_from [] l) as (Hp & _); [constructor|].
Qed.

End Sorted.


(** The entries in the order they are printed are those of the table. *)
Lemma sorted_entries (t : tables) (k : key_t) (v : Z) :
  (k, v) ∈ sorted (map_to_list (counts t)) snd ↔ counts t !! k = Some v.
Proof.
  by rewrite (sorted_perm snd (map_to_list (counts t))), elem_of_map_to_list.
Qed.

(** X14: in the folded format, when the name of every entry decodes, the
    loop over the entries gets to its end and the lines printed for the
    table are as many as its entries: one line per entry, whatever its
    stack. *)
Theorem folded_one_line_per_entry (a : args_t) (h : host) (t : tables) :
  folded a = true →
  (∀ (k : key_t) (v : Z),
     counts t !! k = Some v → is_Some (decode h (name k))) →
  (render_all a h t).2 = true ∧
  length (render_all a h t).1 = size (counts t).
Proof.
  intros Hf Hdec. unfold render_all.
  rewrite <- length_map_to_list.
  rewrite <- (Permutation_length (sorted_perm snd (map_to_list (counts t)))).
  apply render_each_folded; [done|].
  apply Forall_forall. intros [k v] Hin. simpl.
  apply (Hdec k v). by apply sorted_entries.
Qed.

Lemma folded_one_line_per_entry_witness :
  (render_all Example.folded_args Example.quiet_host
              Example.worker_tables).2 = true ∧
  length (render_all Example.folded_args Example.quiet_host
                     Example.worker_tables).1
  = size (counts Example.worker_tables).
Proof.
  apply (folded_one_line_per_entry Example.folded_args Example.quiet_host
           Example.worker_tables).
  - reflexivity.
  - intros k v Hk.
    change (counts Example.worker_tables)
      with ({[ Key "worker" 7 := 1500 ]} : gmap key_t Z) in Hk.
    apply lookup_singleton_Some in Hk as [<- _]. by eexists.
Defined.

(** ** What a session prints *)

Lemma printed_app (l1 l2 : list action) :
  printed (l1 ++ l2) = printed l1 ++ printed l2.
Proof. unfold printed. apply bind_app. Qed.

Lemma printed_lines (l : list string) : printed (Printed <$> l) = l.
Proof.
  unfold printed. induction l as [|s l IH]; [done|].
  rewrite fmap_cons, bind_cons, IH. done.
Qed.

(** X19: in the folded format an entry whose name does not decode ends the
    script in the middle of the pass: fewer lines are printed than the table
    has entries, [UnicodeDecodeError] is the last thing that happens, and
    [counts] is not cleared: the tables are left as they were. *)
Theorem undecodable_name_stops_pass (a : args_t) (h : host) (w : wake)
    (t : tables) (k : key_t) (v : Z) :
  folded a = true →
  w ≠ SleepError →
  counts t !! k = Some v →
  decode h (name k) = None →
  final (loop_body a h w t).1 = t ∧
  drains (loop_body a h w t).1 = 0%nat ∧
  last (actions (loop_body a h w t).1) = Some (Raise "UnicodeDecodeError") ∧
  (length (printed (actions (loop_body a h w t).1)) < size (counts t))%nat.
Proof.
  intros Hf Hw Hk Hn.
  destruct (render_each_raises a h (stack_traces t)
              (sorted (map_to_list (counts t)) snd) k v Hf)
    as [Hok Hlen]; [by apply sorted_entries|done|].
  fold (render_all a h t) in Hok, Hlen.
  rewrite (Permutation_length (sorted_perm snd (map_to_list (counts t)))),
    length_map_to_list in Hlen.
  destruct (render_all a h t) as [lines ok] eqn:Hr.
  simpl in Hok, Hlen. subst ok.
  rewrite (loop_body_raises a h w t lines Hw Hr). cbn [fst actions final].
  split; [done|]. split; [apply pass_raised_drains_not|].
  split; [apply last_snoc|].
  rewrite !printed_app, printed_lines, Hf. destruct w; simpl;
    rewrite ?app_nil_r; done.
Qed.

Lemma undecodable_name_stops_pass_witness :
  final (loop_body Example.folded_args Example.quiet_host Elapsed
           (Tables ∅ {[ Key (String (Ascii.ascii_of_nat 255) "") 7 := 1500 ]}
                   ∅)).1
  = Tables ∅ {[ Key (String (Ascii.ascii_of_nat 255) "") 7 := 1500 ]} ∅.
Proof.
  destruct (undecodable_name_stops_pass Example.folded_args
              Example.quiet_host Elapsed
              (Tables ∅
                 {[ Key (String (Ascii.ascii_of_nat 255) "") 7 := 1500 ]} ∅)
              (Key (String (Ascii.ascii_of_nat 255) "") 7) 1500)
    as [Hfin _].
  - reflexivity.
  - discriminate.
  - apply lookup_singleton_eq.
  - reflexivity.
  - exact Hfin.
Defined.

(** X20: in the multi-line format nothing is decoded, so a pass whose sleep
    has ended always gets to its end: it clears [counts], keeps the other
    tables, and exits. *)
Theorem multiline_pass_completes (a : args_t) (h : host) (w : wake)
    (t : tables) :
  folded a = false →
  w ≠ SleepError →
  (render_all a h t).2 = true ∧
  final (loop_body a h w t).1 = Tables (start t) ∅ (stack_traces t) ∧
  drains (loop_body a h w t).1 = 1%nat ∧
  last (actions (loop_body a h w t).1) = Some Exit.
Proof.
  intros Hf Hw.
  assert (Hok : (render_all a h t).2 = true)
    by by apply render_each_multiline.
  destruct (render_all a h t) as [lines ok] eqn:Hr. simpl in Hok. subst ok.
  rewrite (loop_body_drains a h w t lines Hw Hr). cbn [fst actions final].
  split; [done|]. split; [done|]. split; [apply pass_drains_once|].
  rewrite !app_assoc. apply last_snoc.
Qed.

Lemma multiline_pass_completes_witness :
  final (loop_body Example.plain_args Example.python3_host KeyboardInterrupt
                   Example.worker_tables).1
  = Tables ∅ ∅ {[ 7 := [Example.frameA; Example.frameB] ]}.
Proof.
  destruct (multiline_pass_completes Example.plain_args Example.python3_host
              KeyboardInterrupt Example.worker_tables)
    as (_ & Hfin & _).
  - reflexivity.
  - discriminate.
  - rewrite Hfin. reflexivity.
Defined.

(** What a pass prints, however the sleep ended. *)
Lemma loop_body_printed (a : args_t) (h : host) (w : wake) (t : tables)
    (lines : list string) :
  w ≠ SleepError →
  render_all a h t = (lines, true) →
  printed (actions (loop_body a h w t).1) =
  (if folded a then [] else [""]) ++ lines
  ++ (if folded a then [] else ["Detaching..."]).
Proof.
  intros Hw Hr. rewrite (loop_body_drains a h w t lines Hw Hr).
  cbn [fst actions]. rewrite !printed_app, printed_lines.
  by destruct w, (folded a).
Qed.

(** X15: what a session that attaches, and whose rendering gets to its end,
    prints. The tables are printed as the probe left them when the sleep
    ended, and the text is the same whether the sleep ran its time or was
    interrupted. In the folded format the output is the lines of the entries
    and nothing else; otherwise they come after a header, which names the
    duration when it is below 99999999 seconds, and an empty line, and
    before [Detaching...]. The session ends with [counts] empty and the rest
    of the tables as the probe left them. *)
Theorem session_output (fuel : nat) (a : args_t) (h : host) (d : Z)
    (f : filter_t) (w : wake) (es : list task_switch)
    (lines : list string) :
  fuel ≠ 0%nat →
  duration a = Some d →
  truthy (pid a) && useronly a = false →
  filter_of h a = Some f →
  num_open_kprobes h ≠ 0 →
  wait h 0 = (w, es) →
  w ≠ SleepError →
  render_all a h (run f es no_tables) = (lines, true) →
  ∃ r : finished,
    main fuel a h = Some r ∧
    printed (actions r) =
      (if folded a then []
       else ["Tracing off-CPU time (us) by kernel stack" +:+
               (if d <? 99999999 then " for " +:+ fmt_d d +:+ " secs."
                else "... Hit Ctrl-C to end.");
             ""])
      ++ lines
      ++ (if folded a then [] else ["Detaching..."]) ∧
    final r = Tables (start (run f es no_tables)) ∅
                     (stack_traces (run f es no_tables)).
Proof.
  intros Hfuel Hd Hboth Hf Hk Hwait Hw Hr.
  unfold main. rewrite Hd, Hboth, Hf.
  apply Z.eqb_neq in Hk as ->.
  rewrite output_loop_one_pass, Hwait by done. cbn [fst snd].
  pose proof (loop_body_printed a h w (run f es no_tables) lines Hw Hr)
    as Hpr.
  rewrite (loop_body_drains a h w _ lines Hw Hr) in Hpr |- *.
  cbn [fst actions final] in Hpr. simpl fmap.
  eexists. split; [reflexivity|]. cbn [fst actions final]. split; [|done].
  assert (Hskip : ∀ l, printed (BpfLoad f
                         :: AttachKprobe "finish_task_switch" "oncpu" :: l)
                       = printed l) by done.
  rewrite Hskip, printed_app.
  change (ClearCounts
            :: (if folded a then [] else [Printed "Detaching..."]) ++ [Exit])
    with ([ClearCounts]
            ++ (if folded a then [] else [Printed "Detaching..."]) ++ [Exit]).
  rewrite Hpr. unfold header.
  by destruct (folded a).
Qed.

Lemma session_output_witness :
  ∃ r : finished,
    main 3 Example.plain_args Example.busy_host = Some r ∧
    printed (actions r) =
      ["Tracing off-CPU time (us) by kernel stack for 5 secs."; "";
       "    ffffffff81000010 frameA";
       "    ffffffff81000020 frameB";
       "    -                worker";
       "        4" +:+ nl;
       "Detaching..."].
Proof.
  destruct (session_output 3 Example.plain_args Example.busy_host 5
              FilterAll KeyboardInterrupt
              [TaskSwitch 10 0 0 20 1000 1000 "idle" 3 [Example.frameB];
               TaskSwitch 20 0 0 10 5000 5000 "worker" 7
                          [Example.frameA; Example.frameB]]
              ["    ffffffff81000010 frameA";
               "    ffffffff81000020 frameB";
               "    -                worker";
               "        4" +:+ nl]) as (r & Hr & Hpr & _).
  - discriminate.
  - reflexivity.
  - reflexivity.
  - reflexivity.
  - discriminate.
  - reflexivity.
  - discriminate.
  - vm_compute. reflexivity.
  - exists r. split; [exact Hr|]. rewrite Hpr. reflexivity.
Defined.

(** X16: when no kprobe is open after [attach_kprobe], the script says
    [0 functions traced. Exiting.] and stops there: one attach attempt, no
    header, no pass through the tables, whatever the fuel of the loop. *)
Theorem attach_failure_exits (fuel : nat) (a : args_t) (h : host) :
  is_Some (duration a) →
  truthy (pid a) && useronly a = false →
  is_Some (filter_of h a) →
  num_open_kprobes h = 0 →
  ∃ r : finished,
    main fuel a h = Some r ∧
    printed (actions r) = ["0 functions traced. Exiting."] ∧
    last (actions r) = Some Exit ∧
    attach_attempts (actions r) = 1%nat ∧
    drains r = 0%nat ∧
    final r = no_tables.
Proof.
  intros [d Hd] Hboth [f Hf] Hk.
  unfold main. rewrite Hd, Hboth, Hf, Hk. simpl.
  eexists. split; [reflexivity|]. by repeat split.
Qed.

Lemma attach_failure_exits_witness :
  ∃ r : finished,
    main 3 Example.plain_args
         (Host Example.constants Example.conditions Example.python2_decode
               Example.python2_str 0 Example.symbols (λ _, (Elapsed, [])))
      = Some r ∧
    printed (actions r) = ["0 functions traced. Exiting."] ∧
    last (actions r) = Some Exit ∧
    attach_attempts (actions r) = 1%nat ∧
    drains r = 0%nat ∧
    final r = no_tables.
Proof.
  apply (attach_failure_exits 3 Example.plain_args
           (Host Example.constants Example.conditions Example.python2_decode
               Example.python2_str 0 Example.symbols (λ _, (Elapsed, [])))).
  - by eexists.
  - reflexivity.
  - by eexists.
  - reflexivity.
Defined.

(** X17: an empty [-p] argument counts for nothing: the script does what it
    does without [-p], so that with [-u] it passes the validation and traces
    user threads, and without it traces all threads. *)
Theorem empty_pid_is_no_pid (fuel : nat) (a : args_t) (h : host) :
  pid a = Some "" →
  main fuel a h
  = main fuel (Args (useronly a) None (verbose a) (folded a) (duration a)) h
  ∧ filter_of h a = Some (if useronly a then FilterUser else FilterAll).
Proof.
  destruct a as [u p v fo d]. simpl. intros ->. split.
  - unfold main, filter_of, header. simpl.
    destruct d as [d|]; [|done].
    destruct (if u then _ else _) as [f|]; [|done].
    destruct (num_open_kprobes h =? 0); [done|].
    by rewrite (output_loop_same (Args u (Some "") v fo (Some d))
                                 (Args u None v fo (Some d))).
  - unfold filter_of. simpl. by destruct u.
Qed.

Lemma empty_pid_is_no_pid_witness :
  filter_of Example.quiet_host (Args true (Some "") false true (Some 5))
  = Some FilterUser.
Proof.
  destruct (empty_pid_is_no_pid 3 (Args true (Some "") false true (Some 5))
              Example.quiet_host) as [_ Hf].
  - reflexivity.
  - exact Hf.
Defined.

(** X18: in the multi-line format an entry is always rendered, and takes
    one line for every frame of its stack, in the order the frames are
    stored and the innermost one included, then the line of the name, as
    ["%s"] shows the bytes of it, and the line of the duration. *)
Theorem multiline_prints_every_frame (a : args_t) (h : host)
    (st : gmap Z (list Z)) (k : key_t) (v : Z) :
  folded a = false →
  ∃ ls : list string,
    render a h st (k, v) = Some ls ∧
    length ls = (length (walk st (stack_id k)) + 2)%nat ∧
    (∀ (i : nat) (addr : Z),
       walk st (stack_id k) !! i = Some addr →
       ls !! i =
       Some ("    " +:+ ljust16 (fmt_x addr) +:+ " " +:+ ksym h addr)) ∧
    ls !! length (walk st (stack_id k)) =
      Some ("    " +:+ ljust16 "-" +:+ " " +:+ str_bytes h (name k)) ∧
    ls !! S (length (walk st (stack_id k))) =
      Some ("        " +:+ fmt_d v +:+ nl).
Proof.
  intros Hf. unfold render. rewrite Hf.
  set (frames := walk st (stack_id k)).
  set (line := λ addr, "    " +:+ ljust16 (fmt_x addr) +:+ " " +:+ ksym h addr).
  assert (Hlen : length (line <$> frames) = length frames)
    by apply length_fmap.
  eexists. split; [reflexivity|]. repeat split.
  - rewrite !length_app, Hlen. simpl. lia.
  - intros i addr Hi. rewrite lookup_app_l.
    + by rewrite list_lookup_fmap, Hi.
    + rewrite Hlen. by eapply lookup_lt_Some.
  - rewrite lookup_app_r by (rewrite Hlen; lia).
    rewrite Hlen, Nat.sub_diag. done.
  - rewrite lookup_app_r by (rewrite Hlen; lia).
    rewrite Hlen. by replace (S (length frames) - length frames)%nat
      with 1%nat by lia.
Qed.

Lemma multiline_prints_every_frame_witness :
  render Example.plain_args Example.python3_host
         (stack_traces Example.worker_tables) (Key "worker" 7, 1500)
  = Some ["    ffffffff81000010 frameA";
          "    ffffffff81000020 frameB";
          "    -                b'worker'";
          "        1500" +:+ nl].
Proof.
  destruct (multiline_prints_every_frame Example.plain_args
              Example.python3_host (stack_traces Example.worker_tables)
              (Key "worker" 7) 1500) as (ls & Hls & _).
  - reflexivity.
  - rewrite Hls. vm_compute in Hls. by injection Hls as <-.
Defined.
